(** * BigModel web-search plugin: a shallow embedding of [index.ts] / [index.js]

    The plugin is glue code around one HTTP call.  The embedding keeps the
    dynamic typing of the JavaScript it runs as: configuration input and
    response bodies are untyped [Value]s, property reads on [null] or
    [undefined] throw, template literals go through [ToString], and the
    network is an explicit oracle whose requests are logged.  Invocation
    parameters and the plugin configuration are typed records, as the
    TypeScript interfaces declare them and as the host validates them
    before it calls the handler.  Strings are sequences of code units. *)

From Stdlib Require Import List String Ascii Bool Arith ZArith QArith Qround.
From Stdlib Require Import DecimalString.
Import ListNotations.

Local Open Scope list_scope.
Local Open Scope string_scope.

Set Implicit Arguments.
Set Warnings "-register-all".

(* ================================================================== *)
(** ** The JavaScript fragment the plugin relies on *)
(* ================================================================== *)

Module Js.

(** A JavaScript number: the two infinities, NaN, or a finite value.
    Finite doubles are rationals; [Q] over-approximates them. *)
Inductive number : Type :=
| NaN
| PosInfinity
| NegInfinity
| Finite (q : Q).

Definition of_nat (n : nat) : number := Finite (inject_Z (Z.of_nat n)).
Definition of_Z (z : Z) : number := Finite (inject_Z z).

(** [a <= b] on numbers; every comparison with NaN is false. *)
Definition num_le (a b : number) : bool :=
  match a, b with
  | NaN, _ | _, NaN => false
  | NegInfinity, _ => true
  | _, PosInfinity => true
  | PosInfinity, _ => false
  | _, NegInfinity => false
  | Finite x, Finite y => Qle_bool x y
  end.

(** [a === b] on numbers. *)
Definition num_eq (a b : number) : bool :=
  match a, b with
  | Finite x, Finite y => Qeq_bool x y
  | PosInfinity, PosInfinity => true
  | NegInfinity, NegInfinity => true
  | _, _ => false
  end.

Definition is_integer (a : number) : bool :=
  match a with
  | Finite q => Qeq_bool q (inject_Z (Qfloor q))
  | _ => false
  end.

(** JSON-like data, plus [undefined] and the built-in methods that a
    property read can return.  [VObj] lists the own enumerable
    properties in enumeration order. *)
Inductive Value : Type :=
| VUndefined
| VNull
| VBool (b : bool)
| VNum (n : number)
| VStr (s : string)
| VArr (items : list Value)
| VObj (props : list (string * Value))
| VNative (name : string).

Inductive ErrorKind : Type := PlainError | TypeError | SyntaxError | DOMException.

(** What a [throw] carries.  Every throw of the plugin and every
    rejection of [fetch] and [Response.json] is an [Error] instance, so
    [error instanceof Error] holds for each caught value. *)
Record Thrown : Type := mkThrown { kind : ErrorKind; message : string }.

Inductive outcome (A : Type) : Type :=
| Returned (a : A)
| Threw (e : Thrown).
Arguments Returned {A} a.
Arguments Threw {A} e.

Definition ret {A} (a : A) : outcome A := Returned a.

Definition bind {A B} (m : outcome A) (k : A -> outcome B) : outcome B :=
  match m with
  | Returned a => k a
  | Threw e => Threw e
  end.

Definition throw {A} (k : ErrorKind) (msg : string) : outcome A :=
  Threw (mkThrown k msg).

(** [m.catch(h)] *)
Definition catch {A} (m : outcome A) (h : Thrown -> outcome A) : outcome A :=
  match m with
  | Returned a => Returned a
  | Threw e => h e
  end.

(** How the engine prints a number ([Number::toString]); shortest
    round-trip printing of doubles is not modelled, so it is a
    parameter of the development. *)
Class NumberFormat : Type := { number_to_string : number -> string }.

Definition nat_to_string (n : nat) : string :=
  NilEmpty.string_of_uint (Nat.to_uint n).

Definition to_boolean (v : Value) : bool :=
  match v with
  | VUndefined | VNull => false
  | VBool b => b
  | VNum (Finite q) => negb (Qeq_bool q 0)
  | VNum NaN => false
  | VNum _ => true
  | VStr s => negb (s =? "")
  | VArr _ | VObj _ | VNative _ => true
  end.

Definition typeof (v : Value) : string :=
  match v with
  | VUndefined => "undefined"
  | VNull => "object"
  | VBool _ => "boolean"
  | VNum _ => "number"
  | VStr _ => "string"
  | VArr _ | VObj _ => "object"
  | VNative _ => "function"
  end.

Definition isArray (v : Value) : bool :=
  match v with VArr _ => true | _ => false end.

Definition is_nullish (v : Value) : bool :=
  match v with VUndefined | VNull => true | _ => false end.

(** [a ?? b] *)
Definition nullish (a b : Value) : Value := if is_nullish a then b else a.

(** [a && b] *)
Definition and_then (a b : Value) : Value := if to_boolean a then b else a.

(** [a ?? b] on an optional field of a typed record. *)
Definition or_default {A} (a : option A) (b : A) : A :=
  match a with Some x => x | None => b end.

(** [a ?? b] where [b] is optional too. *)
Definition or_else {A} (a b : option A) : option A :=
  match a with Some x => Some x | None => b end.

Fixpoint lookup (name : string) (props : list (string * Value)) : option Value :=
  match props with
  | [] => None
  | (k, v) :: rest => if k =? name then Some v else lookup name rest
  end.

Definition keys (props : list (string * Value)) : list string := map fst props.

(** V8's wording of the runtime's own TypeErrors. *)
Definition cannot_read (v : Value) (name : string) : string :=
  "Cannot read properties of " ++
  (match v with VNull => "null" | _ => "undefined" end) ++
  " (reading '" ++ name ++ "')".

Definition not_a_function (callee : string) : string :=
  callee ++ " is not a function".

Definition cannot_convert : string := "Cannot convert object to primitive value".

Definition native_source (name : string) : string :=
  "function " ++ name ++ "() { [native code] }".

(** [v.name] for the property names this program reads.  Of those
    names the prototypes define only [length] (strings, arrays), [map]
    (arrays) and the legacy [String.prototype.link]. *)
Definition get_prop (v : Value) (name : string) : outcome Value :=
  match v with
  | VUndefined | VNull => throw TypeError (cannot_read v name)
  | VBool _ | VNum _ | VNative _ => ret VUndefined
  | VStr s =>
      if name =? "length" then ret (VNum (of_nat (String.length s)))
      else if name =? "link" then ret (VNative "link")
      else ret VUndefined
  | VArr items =>
      if name =? "length" then ret (VNum (of_nat (List.length items)))
      else if name =? "map" then ret (VNative "map")
      else ret VUndefined
  | VObj props =>
      match lookup name props with
      | Some x => ret x
      | None => ret VUndefined
      end
  end.

(** [v?.name] *)
Definition get_prop_opt (v : Value) (name : string) : outcome Value :=
  if is_nullish v then ret VUndefined else get_prop v name.

(** [strings.join(sep)] on an array of strings. *)
Fixpoint join (sep : string) (l : list string) : string :=
  match l with
  | [] => ""
  | x :: rest =>
      match rest with
      | [] => x
      | _ :: _ => x ++ sep ++ join sep rest
      end
  end.

Section ToString.
Context {fmt : NumberFormat}.

(** [ToString(v)], as a template literal applies it.  A plain object
    prints through [Object.prototype.toString] unless an own,
    necessarily non-callable, [toString] property shadows it: then
    neither [toString] nor [valueOf] yields a primitive and the
    conversion throws.  Array elements that are [null] or
    [undefined] print as the empty string. *)
Fixpoint to_string (v : Value) : outcome string :=
  match v with
  | VUndefined => ret "undefined"
  | VNull => ret "null"
  | VBool true => ret "true"
  | VBool false => ret "false"
  | VNum n => ret (number_to_string n)
  | VStr s => ret s
  | VArr items =>
      (fix elements (l : list Value) : outcome string :=
         match l with
         | [] => ret ""
         | x :: rest =>
             bind (if is_nullish x then ret "" else to_string x) (fun sx =>
             match rest with
             | [] => ret sx
             | _ :: _ => bind (elements rest) (fun sr => ret (sx ++ "," ++ sr))
             end)
         end) items
  | VObj props =>
      match lookup "toString" props with
      | Some _ => throw TypeError cannot_convert
      | None => ret "[object Object]"
      end
  | VNative name => ret (native_source name)
  end.
End ToString.

(** Own enumerable properties copied by an object spread [...v]. *)
Fixpoint chars_from (i : nat) (s : string) : list (string * Value) :=
  match s with
  | EmptyString => []
  | String c rest => (nat_to_string i, VStr (String c "")) :: chars_from (S i) rest
  end.

Fixpoint items_from (i : nat) (l : list Value) : list (string * Value) :=
  match l with
  | [] => []
  | x :: rest => (nat_to_string i, x) :: items_from (S i) rest
  end.

Definition spread (v : Value) : list (string * Value) :=
  match v with
  | VStr s => chars_from 0 s
  | VArr items => items_from 0 items
  | VObj props => props
  | _ => []
  end.

(** [parts.push(s)] *)
Definition push (parts : list string) (s : string) : list string :=
  (parts ++ [s])%list.

(** [hay.includes(needle)] *)
Fixpoint includes (hay needle : string) : bool :=
  String.prefix needle hay ||
  match hay with
  | EmptyString => false
  | String _ rest => includes rest needle
  end.

End Js.

Import Js.

Declare Scope js_scope.
Notation "'let*' x ':=' c 'in' k" := (Js.bind c (fun x => k))
  (at level 61, x pattern, c at next level, right associativity) : js_scope.
Local Open Scope js_scope.

(* ================================================================== *)
(** ** The network as the plugin sees it *)
(* ================================================================== *)

Module Net.

(** The argument of [fetch].  [body] is the object handed to
    [JSON.stringify]. *)
Record Request : Type := mkRequest {
  url : string;
  method : string;
  headers : list (string * string);
  body : Value
}.

(** What the plugin reads of a [Response]: the status and what
    [response.json()] settles to. *)
Record Response : Type := mkResponse {
  status : nat;
  json : outcome Value
}.

(** [response.ok]: the status is in the range 200-299. *)
Definition ok (r : Response) : bool :=
  (200 <=? status r)%nat && (status r <=? 299)%nat.

Inductive FetchResult : Type :=
| Rejects (e : Thrown)
| Resolves (r : Response).

Definition Network : Type := Request -> FetchResult.

(** A computation that may throw and may call [fetch]; the second
    component lists the requests it sent, oldest first. *)
Definition Eff (A : Type) : Type := Network -> outcome A * list Request.

Definition retE {A} (a : A) : Eff A := fun _ => (Returned a, []).

Definition bindE {A B} (m : Eff A) (k : A -> Eff B) : Eff B :=
  fun net =>
    match m net with
    | (Returned a, sent) => let (r, sent') := k a net in (r, sent ++ sent')%list
    | (Threw e, sent) => (Threw e, sent)
    end.

(** A computation without network access. *)
Definition lift {A} (m : outcome A) : Eff A := fun _ => (m, []).

(** [try { m } catch (e) { h e }] *)
Definition tryE {A} (m : Eff A) (h : Thrown -> Eff A) : Eff A :=
  fun net =>
    match m net with
    | (Returned a, sent) => (Returned a, sent)
    | (Threw e, sent) => let (r, sent') := h e net in (r, sent ++ sent')%list
    end.

Definition fetch (req : Request) : Eff Response :=
  fun net =>
    (match net req with
     | Rejects e => Threw e
     | Resolves r => Returned r
     end, [req]).

End Net.

Import Net.

Notation "x '<-' c ';;' k" := (Net.bindE c (fun x => k))
  (at level 61, c at next level, right associativity) : js_scope.

(* ================================================================== *)
(** ** The plugin *)
(* ================================================================== *)

Inductive SearchEngine : Type :=
| search_std | search_pro | search_pro_sogou | search_pro_quark.

Inductive RecencyFilter : Type :=
| oneDay | oneWeek | oneMonth | oneYear | noLimit.

Inductive ContentSize : Type := medium | high.

Definition engine_name (e : SearchEngine) : string :=
  match e with
  | search_std => "search_std"
  | search_pro => "search_pro"
  | search_pro_sogou => "search_pro_sogou"
  | search_pro_quark => "search_pro_quark"
  end.

Definition recency_name (r : RecencyFilter) : string :=
  match r with
  | oneDay => "oneDay"
  | oneWeek => "oneWeek"
  | oneMonth => "oneMonth"
  | oneYear => "oneYear"
  | noLimit => "noLimit"
  end.

Definition size_name (c : ContentSize) : string :=
  match c with medium => "medium" | high => "high" end.

(** [interface PluginConfig] *)
Record PluginConfig : Type := mkConfig {
  enabled : option bool;
  apiKey : option string;
  defaultSearchEngine : option SearchEngine;
  defaultCount : option number
}.

(** [type WebSearchParams], the static type of [WebSearchParameters]. *)
Record WebSearchParams : Type := mkParams {
  query : string;
  search_engine : option SearchEngine;
  count : option number;
  search_recency_filter : option RecencyFilter;
  content_size : option ContentSize;
  search_domain_filter : option string
}.

(** [interface SearchResultItem] *)
Module Item.
Record SearchResultItem : Type := mk {
  title : string;
  content : string;
  link : string;
  media : option string;
  icon : option string;
  refer : option string;
  publish_date : option string
}.
End Item.

(** The result of a tool invocation: [{ content: [{type, text}], details }]. *)
Record TextBlock : Type := mkBlock { type : string; text : string }.
Record ToolResult : Type := mkResult { content : list TextBlock; details : Value }.

(** *** Configuration schema *)

Definition emptyConfig : PluginConfig := mkConfig None None None None.

Definition as_bool (v : Value) : option bool :=
  match v with VBool b => Some b | _ => None end.

Definition as_string (v : Value) : option string :=
  match v with VStr s => Some s | _ => None end.

Definition as_number (v : Value) : option number :=
  match v with VNum n => Some n | _ => None end.

(** [v === s] for a string literal [s]. *)
Definition is_literal (v : Value) (s : string) : bool :=
  match v with VStr t => t =? s | _ => false end.

Definition as_engine (v : Value) : option SearchEngine :=
  if is_literal v "search_std" then Some search_std
  else if is_literal v "search_pro" then Some search_pro
  else if is_literal v "search_pro_sogou" then Some search_pro_sogou
  else if is_literal v "search_pro_quark" then Some search_pro_quark
  else None.

(** [!value || typeof value !== "object" || Array.isArray(value)] *)
Definition not_plain_object (value : Value) : bool :=
  negb (to_boolean value) || negb (typeof value =? "object") || isArray value.

(** The object literal that both variants of [parse] return. *)
Definition project (raw : Value) : outcome PluginConfig :=
  let* r_enabled := get_prop raw "enabled" in
  let* r_apiKey := get_prop raw "apiKey" in
  let* r_engine := get_prop raw "defaultSearchEngine" in
  let* r_count := get_prop raw "defaultCount" in
  ret {| enabled := if typeof r_enabled =? "boolean" then as_bool r_enabled else None;
         apiKey := if typeof r_apiKey =? "string" then as_string r_apiKey else None;
         defaultSearchEngine :=
           if is_literal r_engine "search_std" || is_literal r_engine "search_pro" ||
              is_literal r_engine "search_pro_sogou" || is_literal r_engine "search_pro_quark"
           then as_engine r_engine else None;
         defaultCount :=
           match as_number r_count with
           | Some n => if num_le (of_Z 1) n && num_le n (of_Z 50) then Some n else None
           | None => None
           end |}.

(** [pluginConfigSchema.parse] of index.ts. *)
Module Ts.
Definition parse (value : Value) : outcome PluginConfig :=
  if not_plain_object value then ret emptyConfig
  else project value.
End Ts.

(** [pluginConfigSchema.parse] of index.js, the strict-key variant. *)
Module Strict.
Definition allowedKeys : list string :=
  ["enabled"; "apiKey"; "defaultSearchEngine"; "defaultCount"].

(** [Object.keys(cfg)] of a non-array object. *)
Definition object_keys (cfg : Value) : list string :=
  match cfg with VObj props => keys props | _ => [] end.

Definition unknownKeys (cfg : Value) : list string :=
  filter (fun k => negb (existsb (String.eqb k) allowedKeys)) (object_keys cfg).

Definition parse (value : Value) : outcome PluginConfig :=
  if not_plain_object value then ret emptyConfig
  else
    if (0 <? List.length (unknownKeys value))%nat
    then throw PlainError ("Unknown config keys: " ++ join ", " (unknownKeys value))
    else project value.
End Strict.

(** *** Request construction and the search call *)

Definition BIGMODEL_API_URL : string := "https://open.bigmodel.cn/api/paas/v4/web_search".

Definition LF : string := String (ascii_of_nat 10) EmptyString.
Definition DQUOTE : string := String (ascii_of_nat 34) EmptyString.

(** An optional string field read as a JavaScript value. *)
Definition opt_string (o : option string) : Value :=
  match o with Some s => VStr s | None => VUndefined end.

Definition opt_engine (o : option SearchEngine) : Value :=
  match o with Some e => VStr (engine_name e) | None => VUndefined end.

(** [const requestBody = { ... }] of [performWebSearch]. *)
Definition requestBody (params : WebSearchParams) : Value :=
  VObj ([ ("search_query", VStr (query params));
          ("search_engine", VStr (engine_name (or_default (search_engine params) search_std)));
          ("search_intent", VBool false);
          ("count", VNum (or_default (count params) (of_Z 10)));
          ("search_recency_filter",
             VStr (recency_name (or_default (search_recency_filter params) noLimit)));
          ("content_size", VStr (size_name (or_default (content_size params) medium))) ]
        ++ spread (and_then (opt_string (search_domain_filter params))
                            (VObj [("search_domain_filter",
                                    opt_string (search_domain_filter params))])))%list.

Definition searchRequest (params : WebSearchParams) (key : string) : Request :=
  {| url := BIGMODEL_API_URL;
     method := "POST";
     headers := [("Authorization", "Bearer " ++ key);
                 ("Content-Type", "application/json")];
     body := requestBody params |}.

Section Plugin.
Context {fmt : NumberFormat}.

(** The [!response.ok] branch of [performWebSearch]: always throws. *)
Definition failWith (response : Response) : outcome Value :=
  let* errorData := catch (json response) (fun _ => ret (VObj [])) in
  let* err := get_prop errorData "error" in
  let* msg := get_prop_opt err "message" in
  let errorMessage := nullish msg (VStr ("HTTP " ++ nat_to_string (status response))) in
  let* shown := to_string errorMessage in
  throw PlainError ("BigModel API error: " ++ shown).

Definition performWebSearch (params : WebSearchParams) (key : string) : Eff Value :=
  response <- fetch (searchRequest params key) ;;
  if negb (ok response) then lift (failWith response)
  else lift (json response).

(** *** Result formatting *)

Definition SEPARATOR : string := LF ++ LF ++ "---" ++ LF ++ LF.

(** The callback handed to [results.map]. *)
Definition formatItem (result : Value) (index : nat) : outcome string :=
  let* r_title := get_prop result "title" in
  let* s_title := to_string r_title in
  let parts := ["[" ++ nat_to_string (index + 1) ++ "] " ++ s_title] in
  let* r_media := get_prop result "media" in
  let* parts :=
    if to_boolean r_media
    then let* s := to_string r_media in ret (push parts ("Source: " ++ s))
    else ret parts in
  let* r_date := get_prop result "publish_date" in
  let* parts :=
    if to_boolean r_date
    then let* s := to_string r_date in ret (push parts ("Published: " ++ s))
    else ret parts in
  let* r_link := get_prop result "link" in
  let* s_link := to_string r_link in
  let parts := push parts ("URL: " ++ s_link) in
  let* r_content := get_prop result "content" in
  let* s_content := to_string r_content in
  let parts := push parts ("Content: " ++ s_content) in
  ret (join LF parts).

(** [items.map(f)], with [f] given each element and its index. *)
Fixpoint mapIndexed (f : Value -> nat -> outcome string) (index : nat)
         (items : list Value) : outcome (list string) :=
  match items with
  | [] => ret []
  | x :: rest =>
      let* y := f x index in
      let* ys := mapIndexed f (S index) rest in
      ret (y :: ys)
  end.

(** [formatSearchResults].  Only an array has a callable [map]: a
    value stored under an own [map] key of a parsed body is data. *)
Definition formatSearchResults (results : Value) : outcome string :=
  let* len := get_prop results "length" in
  if match len with VNum n => num_eq n (of_Z 0) | _ => false end
  then ret "No search results found."
  else
    match results with
    | VArr items =>
        let* formatted := mapIndexed formatItem 0 items in
        ret (join SEPARATOR formatted)
    | _ => throw TypeError (not_a_function "results.map")
    end.

(** *** The tool's [execute] handler (the same in both variants) *)

Definition missingKeyText : string :=
  "Error: BigModel API key is not configured. Please set it in plugin config (plugins.entries.bigmodel-web-search.config.apiKey) or BIGMODEL_API_KEY environment variable.".

Definition missingKeyResult : ToolResult :=
  {| content := [ {| type := "text"; text := missingKeyText |} ];
     details := VObj [("error", VBool true); ("message", VStr "API key not configured")] |}.

Definition errorResult (errorMessage : string) : ToolResult :=
  {| content := [ {| type := "text";
                     text := "Error performing web search: " ++ errorMessage |} ];
     details := VObj [("error", VBool true); ("message", VStr errorMessage)] |}.

(** [{ ...params, search_engine: ..., count: ... }] *)
Definition searchParams (pluginConfig : PluginConfig) (params : WebSearchParams)
  : WebSearchParams :=
  {| query := query params;
     search_engine :=
       Some (or_default (search_engine params)
               (or_default (defaultSearchEngine pluginConfig) search_std));
     count :=
       Some (or_default (count params)
               (or_default (defaultCount pluginConfig) (of_Z 10)));
     search_recency_filter := search_recency_filter params;
     content_size := content_size params;
     search_domain_filter := search_domain_filter params |}.

(** The body of the [try] block. *)
Definition searchAndFormat (pluginConfig : PluginConfig) (params : WebSearchParams)
           (key : string) : Eff ToolResult :=
  response <- performWebSearch (searchParams pluginConfig params) key ;;
  lift (
    let* results := get_prop response "search_result" in
    let* formattedResults := formatSearchResults results in
    let* results' := get_prop response "search_result" in
    let* resultCount := get_prop results' "length" in
    ret {| content :=
             [ {| type := "text";
                  text := "## Web Search Results for: " ++ DQUOTE ++ query params ++ DQUOTE
                          ++ LF ++ LF ++ formattedResults |} ];
           details :=
             VObj [("query", VStr (query params));
                   ("resultCount", resultCount);
                   ("searchEngine",
                    opt_engine (search_engine (searchParams pluginConfig params)))] |}).

(** [execute(_id, params)].  [env] is [process.env.BIGMODEL_API_KEY]. *)
Definition execute (pluginConfig : PluginConfig) (env : option string)
           (params : WebSearchParams) : Eff ToolResult :=
  match or_else (apiKey pluginConfig) env with
  | None => retE missingKeyResult
  | Some key =>
      if negb (to_boolean (VStr key)) then retE missingKeyResult
      else
        tryE (searchAndFormat pluginConfig params key)
             (fun error => retE (errorResult (message error)))
  end.

End Plugin.

(* ================================================================== *)
(** ** The specification's wording, for comparison with the code *)
(* ================================================================== *)

(** A number printer that agrees with ECMAScript on [NaN], the
    infinities and the integers below 10^21; fractions are cut to their
    integer part.  It serves to run the model on concrete inputs. *)
Definition integer_format : NumberFormat :=
  {| number_to_string := fun n =>
       match n with
       | NaN => "NaN"
       | PosInfinity => "Infinity"
       | NegInfinity => "-Infinity"
       | Finite q =>
           (if (Qfloor q <? 0)%Z then "-" else "") ++ nat_to_string (Z.abs_nat (Qfloor q))
       end |}.

(** A well-typed [SearchResultItem] as the object a parsed body holds:
    an optional field is a key that is there or not. *)
Definition opt_prop (name : string) (o : option string) : list (string * Value) :=
  match o with Some s => [(name, VStr s)] | None => [] end.

Definition item_value (it : Item.SearchResultItem) : Value :=
  VObj ([("title", VStr (Item.title it));
         ("content", VStr (Item.content it));
         ("link", VStr (Item.link it))]
        ++ opt_prop "media" (Item.media it)
        ++ opt_prop "icon" (Item.icon it)
        ++ opt_prop "refer" (Item.refer it)
        ++ opt_prop "publish_date" (Item.publish_date it))%list.

Definition present (o : option string) : bool :=
  match o with Some _ => true | None => false end.

Definition non_empty (o : option string) : bool :=
  match o with Some s => negb (s =? "") | None => false end.

(** The lines of one block, with [shown] deciding when an optional line
    is emitted: [present] is the specification's wording, [non_empty]
    what the guards of the code test. *)
Definition labelled (label s : string) : string := label ++ s.

Definition heading (index : nat) (it : Item.SearchResultItem) : string :=
  "[" ++ nat_to_string (index + 1) ++ "] " ++ Item.title it.

Definition optional_line (shown : option string -> bool) (label : string)
           (o : option string) : list string :=
  if shown o then [labelled label (or_default o "")] else [].

Definition block_lines (shown : option string -> bool) (index : nat)
           (it : Item.SearchResultItem) : list string :=
  (heading index it
   :: optional_line shown "Source: " (Item.media it)
   ++ optional_line shown "Published: " (Item.publish_date it)
   ++ [labelled "URL: " (Item.link it); labelled "Content: " (Item.content it)])%list.

Fixpoint blocks_from (shown : option string -> bool) (index : nat)
         (items : list Item.SearchResultItem) : list string :=
  match items with
  | [] => []
  | it :: rest => join LF (block_lines shown index it) :: blocks_from shown (S index) rest
  end.

Definition format_spec (shown : option string -> bool)
           (items : list Item.SearchResultItem) : string :=
  match items with
  | [] => "No search results found."
  | _ :: _ => join SEPARATOR (blocks_from shown 0 items)
  end.


(** The request body in the specification's words. *)
Definition domain_filter_entry (params : WebSearchParams) : list (string * Value) :=
  match search_domain_filter params with
  | Some d => if d =? "" then [] else [("search_domain_filter", VStr d)]
  | None => []
  end.

Definition body_spec (params : WebSearchParams) : Value :=
  VObj ([ ("search_query", VStr (query params));
          ("search_engine",
             VStr (match search_engine params with
                   | Some e => engine_name e
                   | None => "search_std"
                   end));
          ("search_intent", VBool false);
          ("count",
             VNum (match count params with Some n => n | None => of_Z 10 end));
          ("search_recency_filter",
             VStr (match search_recency_filter params with
                   | Some r => recency_name r
                   | None => "noLimit"
                   end));
          ("content_size",
             VStr (match content_size params with
                   | Some c => size_name c
                   | None => "medium"
                   end)) ]
        ++ domain_filter_entry params)%list.

(** Defaulting order of the handler: invocation, then configuration,
    then the hard-coded value. *)
Definition resolved_engine (cfg : PluginConfig) (params : WebSearchParams) : SearchEngine :=
  match search_engine params with
  | Some e => e
  | None =>
      match defaultSearchEngine cfg with
      | Some e => e
      | None => search_std
      end
  end.

Definition resolved_count (cfg : PluginConfig) (params : WebSearchParams) : number :=
  match count params with
  | Some n => n
  | None =>
      match defaultCount cfg with
      | Some n => n
      | None => of_Z 10
      end
  end.

(** The per-field checks of the normalizer.  [in_range] is what the
    code tests; the specification's wording adds [is_integer]. *)
Definition in_range (n : number) : bool := num_le (of_Z 1) n && num_le n (of_Z 50).

Definition engine_of_name (s : string) : option SearchEngine :=
  if s =? "search_std" then Some search_std
  else if s =? "search_pro" then Some search_pro
  else if s =? "search_pro_sogou" then Some search_pro_sogou
  else if s =? "search_pro_quark" then Some search_pro_quark
  else None.

Definition normalize (count_ok : number -> bool) (props : list (string * Value))
  : PluginConfig :=
  {| enabled := match lookup "enabled" props with Some (VBool b) => Some b | _ => None end;
     apiKey := match lookup "apiKey" props with Some (VStr s) => Some s | _ => None end;
     defaultSearchEngine :=
       match lookup "defaultSearchEngine" props with
       | Some (VStr s) => engine_of_name s
       | _ => None
       end;
     defaultCount :=
       match lookup "defaultCount" props with
       | Some (VNum n) => if count_ok n then Some n else None
       | _ => None
       end |}.

Definition parse_spec (count_ok : number -> bool) (value : Value) : PluginConfig :=
  match value with
  | VObj props => normalize count_ok props
  | _ => emptyConfig
  end.

Definition known_key (k : string) : bool := existsb (String.eqb k) Strict.allowedKeys.

Definition has_unknown_key (value : Value) : Prop :=
  exists props k, value = VObj props /\ In k (keys props) /\ ~ In k Strict.allowedKeys.

Definition drop_unknown (props : list (string * Value)) : list (string * Value) :=
  filter (fun kv => known_key (fst kv)) props.

(** Invocation parameters with every omitted optional value written out. *)
Definition with_effective_defaults (cfg : PluginConfig) (params : WebSearchParams)
  : WebSearchParams :=
  {| query := query params;
     search_engine := Some (resolved_engine cfg params);
     count := Some (resolved_count cfg params);
     search_recency_filter :=
       Some (match search_recency_filter params with Some r => r | None => noLimit end);
     content_size :=
       Some (match content_size params with Some c => c | None => medium end);
     search_domain_filter := search_domain_filter params |}.

Definition with_hardcoded_defaults (params : WebSearchParams) : WebSearchParams :=
  with_effective_defaults emptyConfig params.

(** A result whose [details] carry [error: true] and a message. *)
Definition error_shaped (r : ToolResult) : Prop :=
  exists msg shown,
    r = {| content := [ {| type := "text"; text := shown |} ];
           details := VObj [("error", VBool true); ("message", VStr msg)] |}.

(** Concrete inputs used to run the model. *)
Definition bare_query (q : string) : WebSearchParams :=
  mkParams q None None None None None.

Definition explicit_defaults (q : string) : WebSearchParams :=
  mkParams q (Some search_std) (Some (of_Z 10)) (Some noLimit) (Some medium) None.

Definition config_with_key (k : string) : PluginConfig :=
  mkConfig None (Some k) None None.

Definition config_pro (k : string) : PluginConfig :=
  mkConfig None (Some k) (Some search_pro) None.

Definition answers (code : nat) (parsed : outcome Value) : Network :=
  fun _ => Resolves (mkResponse code parsed).

Definition no_results : Value := VObj [("search_result", VArr [])].

Definition bad_key_body : Value :=
  VObj [("error", VObj [("message", VStr "bad key")])].

Definition unparseable : outcome Value :=
  Threw (mkThrown SyntaxError "Unexpected token < in JSON at position 0").

Definition plain_item (t c l : string) : Item.SearchResultItem :=
  Item.mk t c l None None None None.

Definition unsourced_item : Item.SearchResultItem :=
  Item.mk "T" "C" "L" (Some "") None None None.

(* ================================================================== *)
(** ** Registration *)
(* ================================================================== *)

(** The object handed to [api.registerTool].  Its [parameters] entry,
    the TypeBox schema, is data for the host and is not represented.
    The handler takes the invocation id, which it ignores, the value of
    [process.env.BIGMODEL_API_KEY] at the time of the call, and the
    parameters. *)
Record Tool : Type := mkTool {
  tool_name : string;
  tool_label : string;
  tool_description : string;
  tool_execute : string -> option string -> WebSearchParams -> Eff ToolResult
}.

Definition toolDescription : string :=
  "Search the web using BigModel AI search engine. Returns structured search results with titles, URLs, and content summaries optimized for AI processing. Supports multiple search engines (standard, pro, Sogou, Quark) and time/domain filters.".

(** [bigmodelWebSearchPlugin.register] of index.ts: the registry of the
    host is threaded through, and a throw leaves it as it was. *)
Module TsPlugin.
Definition tool `{NumberFormat} (pluginConfig : PluginConfig) : Tool :=
  {| tool_name := "bigmodel_web_search";
     tool_label := "BigModel Web Search";
     tool_description := toolDescription;
     tool_execute := fun _id env params => execute pluginConfig env params |}.

Definition register `{NumberFormat} (api_pluginConfig : Value) (registered : list Tool)
  : outcome unit * list Tool :=
  match Ts.parse api_pluginConfig with
  | Returned pluginConfig => (Returned tt, (registered ++ [tool pluginConfig])%list)
  | Threw e => (Threw e, registered)
  end.
End TsPlugin.

(** [bigmodelWebSearchPlugin.register] of index.js. *)
Module StrictPlugin.
Definition tool `{NumberFormat} (pluginConfig : PluginConfig) : Tool :=
  {| tool_name := "web-search";
     tool_label := "Web Search";
     tool_description := toolDescription;
     tool_execute := fun _id env params => execute pluginConfig env params |}.

Definition register `{NumberFormat} (api_pluginConfig : Value) (registered : list Tool)
  : outcome unit * list Tool :=
  match Strict.parse api_pluginConfig with
  | Returned pluginConfig => (Returned tt, (registered ++ [tool pluginConfig])%list)
  | Threw e => (Threw e, registered)
  end.
End StrictPlugin.

(** A configuration as the object a user writes: an unspecified field
    is a key that is not there. *)
Definition opt_entry {A} (key : string) (inj : A -> Value) (o : option A)
  : list (string * Value) :=
  match o with Some a => [(key, inj a)] | None => [] end.

Definition config_value (cfg : PluginConfig) : Value :=
  VObj (opt_entry "enabled" VBool (enabled cfg)
        ++ opt_entry "apiKey" VStr (apiKey cfg)
        ++ opt_entry "defaultSearchEngine" (fun e => VStr (engine_name e))
                     (defaultSearchEngine cfg)
        ++ opt_entry "defaultCount" VNum (defaultCount cfg))%list.

Definition count_valid (cfg : PluginConfig) : bool :=
  match defaultCount cfg with Some n => in_range n | None => true end.

(** The heading of a successful result. *)
Definition results_heading (q : string) : string :=
  "## Web Search Results for: " ++ DQUOTE ++ q ++ DQUOTE ++ LF ++ LF.

Definition is_type_error (e : Thrown) : Prop := kind e = TypeError.

(** More concrete inputs. *)
Definition rejects (e : Thrown) : Network := fun _ => Rejects e.

Definition connection_refused : Thrown := mkThrown TypeError "fetch failed".

Definition sourced_item : Item.SearchResultItem :=
  Item.mk "Rocq" "A proof assistant" "https://rocq-prover.org" (Some "Inria") None None
          (Some "2025-03-01").

Definition two_results : Value :=
  VObj [("id", VStr "r1");
        ("search_result",
         VArr (map item_value [sourced_item; plain_item "T" "C" "L"]))].

Definition full_config : PluginConfig :=
  mkConfig (Some false) (Some "k") (Some search_pro_quark) (Some (of_Z 15)).

(* ================================================================== *)
(** ** Properties *)
(* ================================================================== *)

(** *** Basic facts about the JavaScript fragment *)

Lemma or_default_spec {A} (o : option A) (d : A) :
  or_default o d = match o with Some x => x | None => d end.
Proof. reflexivity. Qed.

Lemma length_is_zero_iff (n : nat) :
  num_eq (of_nat n) (of_Z 0) = match n with O => true | S _ => false end.
Proof. destruct n; reflexivity. Qed.

Lemma bindE_returned {A B} (m : Eff A) (k : A -> Eff B) net a sent :
  m net = (Returned a, sent) ->
  bindE m k net = (fst (k a net), (sent ++ snd (k a net))%list).
Proof.
  intros Hm. unfold bindE. rewrite Hm. destruct (k a net); reflexivity.
Qed.

Lemma bindE_threw {A B} (m : Eff A) (k : A -> Eff B) net e sent :
  m net = (Threw e, sent) -> bindE m k net = (Threw e, sent).
Proof. intros Hm. unfold bindE. now rewrite Hm. Qed.

(** Every invocation of [performWebSearch] sends exactly one request. *)
Lemma performWebSearch_sends `{NumberFormat} params key net :
  snd (performWebSearch params key net) = [searchRequest params key].
Proof.
  unfold performWebSearch, bindE, fetch.
  destruct (net (searchRequest params key)) as [e | r]; [reflexivity |].
  destruct (negb (ok r)); reflexivity.
Qed.

(** *** The handler's error paths *)

(** C1.  When the plugin configuration has no [apiKey] and the
    environment variable [BIGMODEL_API_KEY] is unset, [execute] returns
    at once a result whose details are
    [{error: true, message: "API key not configured"}] together with one
    explanatory text block, and no request is sent: the log of [fetch]
    calls is empty, whereas [performWebSearch] always logs one
    ([performWebSearch_sends]). *)
Theorem execute_without_key `{NumberFormat} (cfg : PluginConfig) (env : option string)
        (params : WebSearchParams) (net : Network) :
  apiKey cfg = None ->
  env = None ->
  exists explanation,
    execute cfg env params net =
      (Returned {| content := [ {| type := "text"; text := explanation |} ];
                   details := VObj [("error", VBool true);
                                    ("message", VStr "API key not configured")] |},
       [])
    /\ includes explanation "API key is not configured" = true.
Proof.
  intros Hcfg Henv. exists missingKeyText.
  unfold execute. rewrite Hcfg, Henv. split; reflexivity.
Qed.

Lemma execute_without_key_witness :
  exists explanation,
    @execute integer_format emptyConfig None (bare_query "rocq")
             (answers 200 (Returned no_results)) =
      (Returned {| content := [ {| type := "text"; text := explanation |} ];
                   details := VObj [("error", VBool true);
                                    ("message", VStr "API key not configured")] |},
       [])
    /\ includes explanation "API key is not configured" = true.
Proof.
  exact (@execute_without_key integer_format emptyConfig None (bare_query "rocq")
           (answers 200 (Returned no_results)) eq_refl eq_refl).
Defined.

Lemma errorResult_shaped (msg : string) : error_shaped (errorResult msg).
Proof. exists msg, ("Error performing web search: " ++ msg). reflexivity. Qed.

Lemma missingKeyResult_shaped : error_shaped missingKeyResult.
Proof. exists "API key not configured", missingKeyText. reflexivity. Qed.

(** C2.  Whatever the parameters and whatever the network does,
    [execute] returns a result and never throws.  The result is either
    what the search-and-format step returned, or it is error-shaped
    ([details.error = true] with a message); and whenever that step
    throws, the result is the error result built from the thrown
    error's message, with text [Error performing web search: <message>]. *)
Theorem execute_never_raises `{NumberFormat} (cfg : PluginConfig) (env : option string)
        (params : WebSearchParams) (net : Network) :
  exists result sent,
    execute cfg env params net = (Returned result, sent)
    /\ ((exists key, searchAndFormat cfg params key net = (Returned result, sent))
        \/ error_shaped result)
    /\ (forall key e sent',
          or_else (apiKey cfg) env = Some key ->
          key <> "" ->
          searchAndFormat cfg params key net = (Threw e, sent') ->
          sent = sent'
          /\ result =
               {| content := [ {| type := "text";
                                  text := "Error performing web search: " ++ message e |} ];
                  details := VObj [("error", VBool true); ("message", VStr (message e))] |}).
Proof.
  unfold execute.
  destruct (or_else (apiKey cfg) env) as [key |].
  - destruct key as [| c key'].
    + exists missingKeyResult, []. split; [reflexivity |]. split.
      * right. apply missingKeyResult_shaped.
      * intros k e s Hk Hne. injection Hk as <-. now contradiction Hne.
    + cbn [to_boolean negb String.eqb]. unfold tryE.
      destruct (searchAndFormat cfg params (String c key') net) as [[r | e] s] eqn:Hrun.
      * exists r, s. split; [reflexivity |]. split.
        -- left. now exists (String c key').
        -- intros k e s' Hk _ Hthrew. injection Hk as <-.
           rewrite Hrun in Hthrew. discriminate.
      * exists (errorResult (message e)), s.
        split; [unfold retE; now rewrite app_nil_r |]. split.
        -- right. apply errorResult_shaped.
        -- intros k e' s' Hk _ Hthrew. injection Hk as <-.
           rewrite Hrun in Hthrew. injection Hthrew as <- <-. now split.
  - exists missingKeyResult, []. split; [reflexivity |]. split.
    + right. apply missingKeyResult_shaped.
    + discriminate.
Qed.

Lemma execute_never_raises_witness :
  exists result sent,
    @execute integer_format (config_with_key "k") None (bare_query "rocq")
             (answers 200 (Returned VNull)) = (Returned result, sent)
    /\ ((exists key,
           @searchAndFormat integer_format (config_with_key "k") (bare_query "rocq") key
                            (answers 200 (Returned VNull)) = (Returned result, sent))
        \/ error_shaped result)
    /\ (forall key e sent',
          or_else (apiKey (config_with_key "k")) None = Some key ->
          key <> "" ->
          @searchAndFormat integer_format (config_with_key "k") (bare_query "rocq") key
                           (answers 200 (Returned VNull)) = (Threw e, sent') ->
          sent = sent'
          /\ result =
               {| content := [ {| type := "text";
                                  text := "Error performing web search: " ++ message e |} ];
                  details := VObj [("error", VBool true); ("message", VStr (message e))] |}).
Proof.
  exact (@execute_never_raises integer_format (config_with_key "k") None
           (bare_query "rocq") (answers 200 (Returned VNull))).
Defined.

(** The failure paths one by one: a rejected [fetch], a success status
    whose body does not parse, a body without [search_result], a result
    list holding [null], and a result list that is not an array. *)
Lemma rejected_fetch_is_reported `{NumberFormat} cfg params key e net :
  key <> "" ->
  net (searchRequest (searchParams cfg params) key) = Rejects e ->
  execute (mkConfig (enabled cfg) (Some key) (defaultSearchEngine cfg) (defaultCount cfg))
          None params net
  = (Returned (errorResult (message e)), [searchRequest (searchParams cfg params) key]).
Proof.
  intros Hkey Hnet. unfold execute. cbn [apiKey or_else].
  destruct key as [| c key']; [now contradiction Hkey |].
  cbn [to_boolean negb String.eqb].
  unfold tryE, searchAndFormat, performWebSearch, bindE, fetch.
  unfold searchParams in *. cbn [defaultSearchEngine defaultCount] in *.
  now rewrite Hnet.
Qed.

Example unparseable_success_body :
  fst (@execute integer_format (config_with_key "k") None (bare_query "rocq")
                (answers 200 unparseable))
  = Returned (errorResult "Unexpected token < in JSON at position 0").
Proof. reflexivity. Qed.

Example body_without_results :
  fst (@execute integer_format (config_with_key "k") None (bare_query "rocq")
                (answers 200 (Returned (VObj []))))
  = Returned (errorResult
                "Cannot read properties of undefined (reading 'length')").
Proof. reflexivity. Qed.

Example null_result_item :
  fst (@execute integer_format (config_with_key "k") None (bare_query "rocq")
                (answers 200 (Returned (VObj [("search_result", VArr [VNull])]))))
  = Returned (errorResult
                "Cannot read properties of null (reading 'title')").
Proof. reflexivity. Qed.

Example results_not_an_array :
  fst (@execute integer_format (config_with_key "k") None (bare_query "rocq")
                (answers 200 (Returned (VObj [("search_result", VStr "none")]))))
  = Returned (errorResult "results.map is not a function").
Proof. reflexivity. Qed.

(** *** Request construction *)

Lemma requestBody_as_specified (params : WebSearchParams) :
  requestBody params = body_spec params.
Proof.
  destruct params as [q e c r s d].
  unfold requestBody, body_spec, domain_filter_entry; cbn [query search_engine count
    search_recency_filter content_size search_domain_filter].
  destruct e, c, r, s; destruct d as [[| a d'] |]; reflexivity.
Qed.

Lemma domain_filter_entry_keys (params : WebSearchParams) :
  In "search_domain_filter" (keys (domain_filter_entry params)) <->
  exists d, search_domain_filter params = Some d /\ d <> "".
Proof.
  unfold domain_filter_entry.
  destruct (search_domain_filter params) as [d |].
  - destruct (String.eqb_spec d "") as [-> | Hne]; cbn.
    + split; [tauto |]. intros [d [Hd Hne]]. injection Hd as <-. now apply Hne.
    + split; [| tauto]. intros _. now exists d.
  - cbn. split; [tauto |]. intros [d [Hd _]]. discriminate.
Qed.

(** C3.  [performWebSearch] sends one request whose body is exactly the
    specified object: [search_query] is the query, [search_engine],
    [count], [search_recency_filter] and [content_size] are the
    parameter if present and else [search_std], 10, [noLimit] and
    [medium], [search_intent] is always false, and the key
    [search_domain_filter] is there if and only if the parameter is
    present and non-empty. *)
Theorem performWebSearch_request_body `{NumberFormat} (params : WebSearchParams)
        (key : string) (net : Network) :
  (exists req,
      snd (performWebSearch params key net) = [req] /\ body req = body_spec params)
  /\ (In "search_domain_filter" (Strict.object_keys (requestBody params)) <->
      exists d, search_domain_filter params = Some d /\ d <> "")
  /\ (forall d, search_domain_filter params = Some d -> d <> "" ->
        get_prop (requestBody params) "search_domain_filter" = Returned (VStr d))
  /\ get_prop (requestBody params) "search_query" = Returned (VStr (query params))
  /\ get_prop (requestBody params) "search_intent" = Returned (VBool false).
Proof.
  split; [| split; [| split; [| split]]].
  - exists (searchRequest params key). split.
    + apply performWebSearch_sends.
    + apply requestBody_as_specified.
  - rewrite requestBody_as_specified. unfold body_spec, Strict.object_keys, keys.
    rewrite map_app, in_app_iff. fold (keys (domain_filter_entry params)).
    rewrite <- domain_filter_entry_keys. cbn.
    split; [| tauto]. intros [Hin | Hin]; [| exact Hin].
    repeat (destruct Hin as [Hin | Hin]; [discriminate |]). contradiction.
  - intros d Hd Hne. rewrite requestBody_as_specified.
    unfold body_spec, domain_filter_entry. rewrite Hd.
    destruct (String.eqb_spec d "") as [-> | _]; [now contradiction Hne | reflexivity].
  - rewrite requestBody_as_specified. reflexivity.
  - rewrite requestBody_as_specified. reflexivity.
Qed.

(** *** Error statuses *)

Lemma prefix_refl (s : string) : String.prefix s s = true.
Proof.
  induction s as [| c s IH]; [reflexivity |].
  cbn. destruct (ascii_dec c c) as [_ | Hne]; [exact IH | now contradiction Hne].
Qed.

Lemma includes_suffix (pre s : string) : includes (pre ++ s) s = true.
Proof.
  induction pre as [| c pre IH].
  - cbn [append]. destruct s; cbn [includes]; now rewrite prefix_refl.
  - cbn [append includes]. rewrite IH. apply orb_true_r.
Qed.

(** The [!response.ok] branch never returns a value. *)
Lemma failWith_always_throws `{NumberFormat} (r : Response) :
  exists e, failWith r = Threw e.
Proof.
  unfold failWith.
  destruct (catch (json r) (fun _ => ret (VObj []))) as [errorData | e]; cbn [bind];
    [| now exists e].
  destruct (get_prop errorData "error") as [err | e]; cbn [bind]; [| now exists e].
  destruct (get_prop_opt err "message") as [msg | e]; cbn [bind]; [| now exists e].
  destruct (to_string _) as [shown | e]; cbn [bind]; [| now exists e].
  unfold throw. now eexists.
Qed.

Lemma performWebSearch_error_status `{NumberFormat} params key net (r : Response) :
  net (searchRequest params key) = Resolves r ->
  ok r = false ->
  performWebSearch params key net = (fst (lift (failWith r) net), [searchRequest params key])
  /\ exists e, failWith r = Threw e.
Proof.
  intros Hnet Hok. split; [| apply failWith_always_throws].
  unfold performWebSearch, bindE, fetch. rewrite Hnet, Hok. reflexivity.
Qed.

(** With an error body that is an object, the message is the upstream
    [error.message] when that is a string ... *)
Lemma upstream_message_is_reported `{NumberFormat} (r : Response) props eprops m :
  json r = Returned (VObj props) ->
  lookup "error" props = Some (VObj eprops) ->
  lookup "message" eprops = Some (VStr m) ->
  failWith r = Threw (mkThrown PlainError ("BigModel API error: " ++ m)).
Proof.
  intros Hjson Herr Hmsg. unfold failWith. rewrite Hjson. cbn.
  rewrite Herr. cbn. now rewrite Hmsg.
Qed.

(** ... and names the status when the object has no [error]. *)
Lemma status_is_reported_without_error_field `{NumberFormat} (r : Response) props :
  json r = Returned (VObj props) ->
  lookup "error" props = None ->
  failWith r
  = Threw (mkThrown PlainError ("BigModel API error: HTTP " ++ nat_to_string (status r))).
Proof.
  intros Hjson Herr. unfold failWith. rewrite Hjson. cbn. now rewrite Herr.
Qed.

(** A body that does not parse is replaced by the empty object, so the
    message names the status. *)
Lemma status_is_reported_when_unparseable `{NumberFormat} (r : Response) e :
  json r = Threw e ->
  failWith r
  = Threw (mkThrown PlainError ("BigModel API error: HTTP " ++ nat_to_string (status r)))
  /\ includes ("BigModel API error: HTTP " ++ nat_to_string (status r))
              (nat_to_string (status r)) = true.
Proof.
  intros Hjson. split.
  - unfold failWith. now rewrite Hjson.
  - apply includes_suffix.
Qed.

Example bad_key_401 :
  @performWebSearch integer_format (bare_query "rocq") "k" (answers 401 (Returned bad_key_body))
  = (Threw (mkThrown PlainError "BigModel API error: bad key"),
     [searchRequest (bare_query "rocq") "k"])
  /\ includes "BigModel API error: bad key" "bad key" = true.
Proof. split; reflexivity. Qed.

Example unparseable_500 :
  @performWebSearch integer_format (bare_query "rocq") "k" (answers 500 unparseable)
  = (Threw (mkThrown PlainError "BigModel API error: HTTP 500"),
     [searchRequest (bare_query "rocq") "k"])
  /\ includes "BigModel API error: HTTP 500" "500" = true.
Proof. split; reflexivity. Qed.

(** C4.  A non-success status always makes [performWebSearch] throw
    ([performWebSearch_error_status]), and the message carries the
    upstream [error.message] or else the status in the cases above.
    The statement fails on a body that parses to [null]: status 500 with
    body [null] is not replaced by the empty object, reading [error]
    from it throws the runtime's own TypeError, and that message does
    not contain the status code. *)
Theorem null_error_body_hides_status :
  @performWebSearch integer_format (bare_query "rocq") "k" (answers 500 (Returned VNull))
  = (Threw (mkThrown TypeError "Cannot read properties of null (reading 'error')"),
     [searchRequest (bare_query "rocq") "k"])
  /\ includes "Cannot read properties of null (reading 'error')" "500" = false
  /\ ok (mkResponse 500 (Returned VNull)) = false.
Proof. repeat split; reflexivity. Qed.

(** *** Result formatting *)

(** On a well-typed item the callback builds the title line, the two
    optional lines when their field is a non-empty string, then the URL
    and content lines. *)
Lemma formatItem_typed `{NumberFormat} (it : Item.SearchResultItem) (index : nat) :
  formatItem (item_value it) index = Returned (join LF (block_lines non_empty index it)).
Proof.
  destruct it as [t c l md ic rf pd].
  destruct md as [[| a md] |], ic, rf, pd as [[| b pd] |]; reflexivity.
Qed.

Lemma mapIndexed_typed `{NumberFormat} (items : list Item.SearchResultItem) (index : nat) :
  mapIndexed formatItem index (map item_value items)
  = Returned (blocks_from non_empty index items).
Proof.
  revert index. induction items as [| it rest IH]; intros index; [reflexivity |].
  cbn [map mapIndexed blocks_from]. rewrite formatItem_typed. cbn [bind].
  rewrite IH. reflexivity.
Qed.

Lemma formatSearchResults_typed `{NumberFormat} (items : list Item.SearchResultItem) :
  formatSearchResults (VArr (map item_value items)) = Returned (format_spec non_empty items).
Proof.
  unfold formatSearchResults. cbn [get_prop String.eqb Ascii.eqb Bool.eqb ret bind].
  rewrite length_is_zero_iff, length_map.
  destruct items as [| it rest]; [reflexivity |].
  cbn [List.length]. rewrite mapIndexed_typed. reflexivity.
Qed.

(** The two readings of an optional line agree on lists without empty
    optional values. *)
Lemma present_is_non_empty (items : list Item.SearchResultItem) :
  Forall (fun it => Item.media it <> Some "" /\ Item.publish_date it <> Some "") items ->
  format_spec present items = format_spec non_empty items.
Proof.
  intros Hall.
  assert (Hblocks : forall index,
             blocks_from present index items = blocks_from non_empty index items).
  { induction Hall as [| it rest [Hm Hd] _ IH]; intros index; [reflexivity |].
    cbn [blocks_from]. rewrite IH. f_equal. f_equal.
    unfold block_lines, optional_line.
    destruct (Item.media it) as [[| a m] |], (Item.publish_date it) as [[| b d] |];
      try reflexivity; exfalso; (now apply Hm) || (now apply Hd). }
  unfold format_spec. destruct items; [reflexivity |]. now rewrite Hblocks.
Qed.

(** C5, as stated, fails on an item whose [media] is present and empty:
    the specified block has a [Source: ] line, the code prints none. *)
Lemma empty_media_has_no_source_line :
  @formatSearchResults integer_format (VArr [item_value unsourced_item])
  <> Returned (format_spec present [unsourced_item]).
Proof. vm_compute. discriminate. Qed.

(** C5 (amended).  [formatSearchResults] returns on every well-typed
    list and never throws there: the empty list gives exactly
    [No search results found.]; otherwise the items give, in input
    order and numbered from 1, blocks made of the title line, a
    [Source:] line if [media] is present and non-empty, a [Published:]
    line if [publish_date] is present and non-empty, the [URL:] line
    and the [Content:] line, joined by a newline, the blocks joined by
    a blank line, three dashes and a blank line. *)
Theorem formatSearchResults_blocks `{NumberFormat} (items : list Item.SearchResultItem) :
  formatSearchResults (VArr (map item_value items)) = Returned (format_spec non_empty items)
  /\ formatSearchResults (VArr []) = Returned "No search results found."
  /\ formatSearchResults (VArr [item_value (plain_item "T" "C" "L")])
     = Returned ("[1] T" ++ LF ++ "URL: L" ++ LF ++ "Content: C")
  /\ SEPARATOR = LF ++ LF ++ "---" ++ LF ++ LF.
Proof.
  split; [apply formatSearchResults_typed |].
  split; [reflexivity |]. split; reflexivity.
Qed.

(** C10.  An optional line is emitted on truthiness, not on presence:
    an item whose [media] is the empty string is formatted as if it had
    no [media], likewise for [publish_date], and with both empty the
    block is the title, URL and content lines only. *)
Theorem empty_optional_fields_are_skipped `{NumberFormat}
        (t c l : string) (ic rf : option string) (index : nat) :
  (forall pd,
      formatItem (item_value (Item.mk t c l (Some "") ic rf pd)) index
      = formatItem (item_value (Item.mk t c l None ic rf pd)) index)
  /\ (forall md,
      formatItem (item_value (Item.mk t c l md ic rf (Some ""))) index
      = formatItem (item_value (Item.mk t c l md ic rf None)) index)
  /\ formatItem (item_value (Item.mk t c l (Some "") ic rf (Some ""))) index
     = Returned (join LF [ "[" ++ nat_to_string (index + 1) ++ "] " ++ t;
                           "URL: " ++ l;
                           "Content: " ++ c ]).
Proof.
  split; [| split].
  - intros pd. now rewrite !formatItem_typed.
  - intros md. rewrite !formatItem_typed.
    unfold block_lines, optional_line. cbn [Item.media Item.publish_date non_empty].
    reflexivity.
  - now rewrite formatItem_typed.
Qed.

(** *** Defaulting in the handler *)

Lemma searchParams_resolved (cfg : PluginConfig) (params : WebSearchParams) :
  search_engine (searchParams cfg params) = Some (resolved_engine cfg params)
  /\ count (searchParams cfg params) = Some (resolved_count cfg params).
Proof.
  unfold searchParams, resolved_engine, resolved_count; cbn [search_engine count].
  destruct (search_engine params), (count params),
    (defaultSearchEngine cfg), (defaultCount cfg); split; reflexivity.
Qed.

(** What a successful search-and-format step returns and sends. *)
Lemma searchAndFormat_returned `{NumberFormat} cfg params key net result sent :
  searchAndFormat cfg params key net = (Returned result, sent) ->
  sent = [searchRequest (searchParams cfg params) key]
  /\ exists shown resultCount,
      result =
        {| content := [ {| type := "text"; text := shown |} ];
           details := VObj [("query", VStr (query params));
                            ("resultCount", resultCount);
                            ("searchEngine",
                             VStr (engine_name (resolved_engine cfg params)))] |}.
Proof.
  unfold searchAndFormat, bindE.
  pose proof (performWebSearch_sends (searchParams cfg params) key net) as Hsent.
  destruct (performWebSearch (searchParams cfg params) key net) as [[response | e] s];
    [| discriminate].
  cbn [snd] in Hsent. subst s. unfold lift.
  destruct (searchParams_resolved cfg params) as [-> _].
  destruct (get_prop response "search_result") as [results | e]; cbn [bind];
    [| discriminate].
  destruct (formatSearchResults results) as [formatted | e]; cbn [bind]; [| discriminate].
  destruct (get_prop results "length") as [len | e]; cbn [bind]; [| discriminate].
  intros Heq. injection Heq as <- <-. split; [reflexivity |].
  now eexists _, _.
Qed.

(** C6.  [search_engine] and [count] resolve to the invocation value
    if present, else to the configured default if present, else to
    [search_std] and 10; the request carries the resolved values, and on
    success [details.searchEngine] is the resolved engine. *)
Theorem defaults_resolution `{NumberFormat} (cfg : PluginConfig) (params : WebSearchParams) :
  search_engine (searchParams cfg params) = Some (resolved_engine cfg params)
  /\ count (searchParams cfg params) = Some (resolved_count cfg params)
  /\ (forall env net result sent,
        execute cfg env params net = (Returned result, sent) ->
        get_prop (details result) "error" = Returned VUndefined ->
        get_prop (details result) "searchEngine"
        = Returned (VStr (engine_name (resolved_engine cfg params)))
        /\ exists req,
            sent = [req]
            /\ get_prop (body req) "search_engine"
               = Returned (VStr (engine_name (resolved_engine cfg params)))
            /\ get_prop (body req) "count" = Returned (VNum (resolved_count cfg params))).
Proof.
  split; [apply searchParams_resolved |]. split; [apply searchParams_resolved |].
  intros env net result sent Hrun Hok.
  unfold execute in Hrun.
  destruct (or_else (apiKey cfg) env) as [key |].
  2: { injection Hrun as <- <-. discriminate Hok. }
  destruct (negb (to_boolean (VStr key))).
  { injection Hrun as <- <-. discriminate Hok. }
  unfold tryE in Hrun.
  destruct (searchAndFormat cfg params key net) as [[r | e] s] eqn:Hstep.
  - injection Hrun as <- <-.
    apply searchAndFormat_returned in Hstep as [-> [shown [rc ->]]].
    split; [reflexivity |].
    exists (searchRequest (searchParams cfg params) key). split; [reflexivity |].
    cbn [body searchRequest]. rewrite requestBody_as_specified.
    unfold body_spec.
    destruct (searchParams_resolved cfg params) as [-> ->]. split; reflexivity.
  - unfold retE in Hrun. injection Hrun as <- <-. discriminate Hok.
Qed.

(** With a configured default engine and no per-call override, the
    engine reported in [details] is the configured one. *)
Lemma defaults_resolution_witness :
  resolved_engine (config_pro "k") (bare_query "rocq") = search_pro
  /\ fst (@execute integer_format (config_pro "k") None (bare_query "rocq")
                   (answers 200 (Returned no_results)))
     = Returned
         {| content :=
              [ {| type := "text";
                   text := "## Web Search Results for: " ++ DQUOTE ++ "rocq" ++ DQUOTE
                           ++ LF ++ LF ++ "No search results found." |} ];
            details := VObj [("query", VStr "rocq");
                             ("resultCount", VNum (of_nat 0));
                             ("searchEngine", VStr "search_pro")] |}
  /\ get_prop (VObj [("query", VStr "rocq");
                     ("resultCount", VNum (of_nat 0));
                     ("searchEngine", VStr "search_pro")]) "searchEngine"
     = Returned (VStr (engine_name (resolved_engine (config_pro "k") (bare_query "rocq")))).
Proof.
  split; [reflexivity |]. split; [reflexivity |].
  exact (proj1 (proj2 (proj2 (@defaults_resolution integer_format (config_pro "k")
                                (bare_query "rocq")))
                  None (answers 200 (Returned no_results)) _ _ eq_refl eq_refl)).
Defined.

(** *** Configuration normalizer *)

Lemma engine_check (v : Value) :
  (if is_literal v "search_std" || is_literal v "search_pro" ||
      is_literal v "search_pro_sogou" || is_literal v "search_pro_quark"
   then as_engine v else None)
  = match v with VStr s => engine_of_name s | _ => None end.
Proof.
  destruct v; try reflexivity.
  unfold as_engine, engine_of_name, is_literal.
  destruct (s =? "search_std"), (s =? "search_pro"),
    (s =? "search_pro_sogou"), (s =? "search_pro_quark"); reflexivity.
Qed.

Lemma project_object (props : list (string * Value)) :
  project (VObj props) = Returned (normalize in_range props).
Proof.
  unfold project. cbn [get_prop].
  assert (Hget : forall name,
             (match lookup name props with Some x => ret x | None => ret VUndefined end)
             = Returned (match lookup name props with Some x => x | None => VUndefined end)).
  { intros name. now destruct (lookup name props). }
  rewrite !Hget. cbn [bind]. unfold ret. f_equal.
  unfold normalize. rewrite engine_check. f_equal.
  - destruct (lookup "enabled" props) as [[] |]; reflexivity.
  - destruct (lookup "apiKey" props) as [[] |]; reflexivity.
  - destruct (lookup "defaultSearchEngine" props) as [[] |]; reflexivity.
  - destruct (lookup "defaultCount" props) as [[] |]; reflexivity.
Qed.

Lemma parse_as_normalized (value : Value) :
  Ts.parse value = Returned (parse_spec in_range value).
Proof.
  unfold Ts.parse.
  destruct value as [| | b | n | s | items | props | name]; try reflexivity.
  - now destruct b.
  - destruct n as [| | | q]; try reflexivity.
    unfold not_plain_object, to_boolean. now destruct (Qeq_bool q 0).
  - now destruct s.
  - cbn [not_plain_object to_boolean typeof isArray negb orb String.eqb Ascii.eqb Bool.eqb].
    apply project_object.
Qed.

(** C7, as stated, fails on a fractional count: 2.5 passes the check of
    the code although it is no integer. *)
Lemma fractional_count_is_kept :
  Ts.parse (VObj [("defaultCount", VNum (Finite (5 # 2)))])
  = Returned (mkConfig None None None (Some (Finite (5 # 2))))
  /\ is_integer (Finite (5 # 2)) = false
  /\ Ts.parse (VObj [("defaultCount", VNum (Finite (5 # 2)))])
     <> Returned (parse_spec (fun n => is_integer n && in_range n)
                             (VObj [("defaultCount", VNum (Finite (5 # 2)))])).
Proof.
  split; [reflexivity |]. split; [reflexivity |]. vm_compute. discriminate.
Qed.

(** C7 (amended).  [parse] of index.ts returns on every input and
    never throws.  An input that is not a non-array object gives the
    empty configuration.  Otherwise the four recognized fields are
    projected, each kept if and only if it passes its check: [enabled]
    a boolean, [apiKey] a string, [defaultSearchEngine] one of the four
    engine names, [defaultCount] a number between 1 and 50 inclusive,
    whether an integer or not; a field that fails is absent.  So
    [{apiKey: "x", defaultCount: 51}] gives [{apiKey: "x"}]. *)
Theorem parse_normalizes (value : Value) :
  Ts.parse value = Returned (parse_spec in_range value)
  /\ Ts.parse (VObj [("apiKey", VStr "x"); ("defaultCount", VNum (of_Z 51))])
     = Returned (mkConfig None (Some "x") None None)
  /\ Ts.parse (VObj [("defaultSearchEngine", VStr "bogus")]) = Returned emptyConfig
  /\ (forall n, in_range n = true <-> num_le (of_Z 1) n = true /\ num_le n (of_Z 50) = true).
Proof.
  split; [apply parse_as_normalized |].
  split; [reflexivity |]. split; [reflexivity |].
  intros n. unfold in_range. apply andb_true_iff.
Qed.

(** *** The strict-key variant *)

Lemma known_key_spec (k : string) : known_key k = true <-> In k Strict.allowedKeys.
Proof.
  unfold known_key. rewrite existsb_exists. split.
  - intros [x [Hin Heq]]. apply String.eqb_eq in Heq. now subst.
  - intros Hin. exists k. split; [exact Hin | apply String.eqb_refl].
Qed.

Lemma unknownKeys_spec (props : list (string * Value)) (k : string) :
  In k (Strict.unknownKeys (VObj props)) <-> In k (keys props) /\ ~ In k Strict.allowedKeys.
Proof.
  unfold Strict.unknownKeys, Strict.object_keys. rewrite filter_In.
  fold (known_key k). rewrite <- known_key_spec.
  destruct (known_key k); cbn; intuition congruence.
Qed.

Lemma some_unknownKeys (props : list (string * Value)) :
  (0 <? List.length (Strict.unknownKeys (VObj props)))%nat = true
  <-> exists k, In k (keys props) /\ ~ In k Strict.allowedKeys.
Proof.
  destruct (Strict.unknownKeys (VObj props)) as [| k rest] eqn:Hkeys; cbn.
  - split; [discriminate |]. intros [k Hk].
    apply unknownKeys_spec in Hk. rewrite Hkeys in Hk. contradiction.
  - split; [| reflexivity]. intros _. exists k.
    apply unknownKeys_spec. rewrite Hkeys. now left.
Qed.

Lemma lookup_drop_unknown (name : string) (props : list (string * Value)) :
  known_key name = true ->
  lookup name (drop_unknown props) = lookup name props.
Proof.
  intros Hknown. induction props as [| [k v] rest IH]; [reflexivity |].
  cbn [drop_unknown filter fst lookup]. fold (drop_unknown rest).
  destruct (String.eqb_spec k name) as [-> | Hne].
  - rewrite Hknown. cbn [lookup]. now rewrite String.eqb_refl.
  - destruct (known_key k); [| exact IH].
    cbn [lookup]. destruct (String.eqb_spec k name) as [-> | _];
      [now contradiction Hne | exact IH].
Qed.

Lemma normalize_drop_unknown (props : list (string * Value)) :
  normalize in_range (drop_unknown props) = normalize in_range props.
Proof.
  unfold normalize. now rewrite !lookup_drop_unknown by reflexivity.
Qed.

Lemma strict_parse_cases (value : Value) :
  (has_unknown_key value /\
   Strict.parse value
   = Threw (mkThrown PlainError
              ("Unknown config keys: " ++ join ", " (Strict.unknownKeys value))))
  \/ (~ has_unknown_key value /\ Strict.parse value = Ts.parse value).
Proof.
  unfold Strict.parse, Ts.parse, has_unknown_key.
  destruct (not_plain_object value) eqn:Hplain.
  - right. split; [| reflexivity].
    intros [props [k [-> _]]]. discriminate Hplain.
  - destruct value as [| | b | n | s | items | props | name];
      try (right; split; [intros [p [k [Hv _]]]; discriminate Hv | ];
           cbn [Strict.unknownKeys Strict.object_keys filter List.length Nat.ltb Nat.leb];
           reflexivity).
    destruct (0 <? List.length (Strict.unknownKeys (VObj props)))%nat eqn:Hsome.
    + left. split; [| reflexivity].
      apply some_unknownKeys in Hsome as [k Hk]. now exists props, k.
    + right. split; [| reflexivity].
      intros [p [k [Hv Hk]]]. injection Hv as <-.
      assert (Hex : exists k, In k (keys props) /\ ~ In k Strict.allowedKeys)
        by now exists k.
      apply some_unknownKeys in Hex. congruence.
Qed.

(** C9.  The strict-key [parse] of index.js throws exactly when the
    input is a non-array object with at least one key outside the four
    recognized names, and then the error lists those keys; on every
    other input it agrees with the [parse] of index.ts.  That one
    returns on every input, and unknown keys do not change its result. *)
Theorem strict_parse_raises_iff (value : Value) :
  ((exists e, Strict.parse value = Threw e) <-> has_unknown_key value)
  /\ (has_unknown_key value ->
      Strict.parse value
      = Threw (mkThrown PlainError
                 ("Unknown config keys: " ++ join ", " (Strict.unknownKeys value))))
  /\ (~ has_unknown_key value -> Strict.parse value = Ts.parse value)
  /\ (exists cfg, Ts.parse value = Returned cfg)
  /\ (forall props, Ts.parse (VObj (drop_unknown props)) = Ts.parse (VObj props)).
Proof.
  assert (Hts : exists cfg, Ts.parse value = Returned cfg)
    by (eexists; apply parse_as_normalized).
  destruct (strict_parse_cases value) as [[Hunk Hthrow] | [Hknown Hsame]].
  - split; [| split; [| split; [| split]]].
    + split; [intros _; exact Hunk | intros _; eexists; exact Hthrow].
    + intros _. exact Hthrow.
    + intros Hno. now contradiction Hno.
    + exact Hts.
    + intros props. rewrite !parse_as_normalized. cbn [parse_spec].
      now rewrite normalize_drop_unknown.
  - split; [| split; [| split; [| split]]].
    + split; [| intros Hunk; now contradiction Hknown].
      intros [e He]. rewrite Hsame in He. destruct Hts as [cfg Hcfg]. congruence.
    + intros Hunk. now contradiction Hknown.
    + intros _. exact Hsame.
    + exact Hts.
    + intros props. rewrite !parse_as_normalized. cbn [parse_spec].
      now rewrite normalize_drop_unknown.
Qed.

(** *** Defaulting as a round trip *)

Lemma resolved_with_defaults (cfg : PluginConfig) (params : WebSearchParams) :
  resolved_engine cfg (with_effective_defaults cfg params) = resolved_engine cfg params
  /\ resolved_count cfg (with_effective_defaults cfg params) = resolved_count cfg params.
Proof. split; reflexivity. Qed.

Lemma searchRequest_with_defaults (cfg : PluginConfig) (params : WebSearchParams)
      (key : string) :
  searchRequest (searchParams cfg (with_effective_defaults cfg params)) key
  = searchRequest (searchParams cfg params) key.
Proof. reflexivity. Qed.

Lemma searchAndFormat_with_defaults `{NumberFormat} cfg params key :
  searchAndFormat cfg (with_effective_defaults cfg params) key
  = searchAndFormat cfg params key.
Proof.
  unfold searchAndFormat, performWebSearch.
  rewrite searchRequest_with_defaults.
  destruct (searchParams_resolved cfg params) as [-> _].
  destruct (searchParams_resolved cfg (with_effective_defaults cfg params)) as [-> _].
  reflexivity.
Qed.

Lemma performWebSearch_with_defaults `{NumberFormat} params key :
  performWebSearch (with_hardcoded_defaults params) key = performWebSearch params key.
Proof.
  unfold performWebSearch, searchRequest. rewrite !requestBody_as_specified.
  unfold body_spec, domain_filter_entry, with_hardcoded_defaults, with_effective_defaults,
    resolved_engine, resolved_count.
  cbn [query search_engine count search_recency_filter content_size search_domain_filter
       defaultSearchEngine defaultCount emptyConfig].
  destruct (search_engine params), (count params),
    (search_recency_filter params), (content_size params); reflexivity.
Qed.

(** C8, as stated, fails under a configured default engine: with
    [defaultSearchEngine = search_pro], omitting [search_engine]
    searches with [search_pro] while the explicit [search_std] searches
    with [search_std], and request and details differ. *)
Lemma configured_default_breaks_round_trip :
  @execute integer_format (config_pro "k") None (explicit_defaults "rocq")
           (answers 200 (Returned no_results))
  <> @execute integer_format (config_pro "k") None (bare_query "rocq")
              (answers 200 (Returned no_results)).
Proof. vm_compute. discriminate. Qed.

(** C8 (amended).  Writing out, for every omitted optional parameter,
    the value the handler would resolve it to (for [search_engine] and
    [count] the configured default if there is one, else [search_std]
    and 10; [noLimit]; [medium]) changes nothing: the requests sent and
    the returned text and details are the same.  When the configuration
    sets no other default than [search_std] and 10, those values are the
    hard-coded ones; and [performWebSearch] itself sends the same
    request for the hard-coded values as for omitted ones. *)
Theorem defaulting_is_idempotent `{NumberFormat} (cfg : PluginConfig)
        (env : option string) (params : WebSearchParams) (key : string) (net : Network) :
  execute cfg env (with_effective_defaults cfg params) net = execute cfg env params net
  /\ performWebSearch (with_hardcoded_defaults params) key net
     = performWebSearch params key net
  /\ (or_default (defaultSearchEngine cfg) search_std = search_std ->
      or_default (defaultCount cfg) (of_Z 10) = of_Z 10 ->
      execute cfg env (with_hardcoded_defaults params) net = execute cfg env params net)
  /\ with_hardcoded_defaults (bare_query (query params)) = explicit_defaults (query params).
Proof.
  split; [| split; [| split]].
  - unfold execute. destruct (or_else (apiKey cfg) env) as [k |]; [| reflexivity].
    now rewrite searchAndFormat_with_defaults.
  - now rewrite performWebSearch_with_defaults.
  - intros Hengine Hcount.
    assert (Hsame : with_hardcoded_defaults params = with_effective_defaults cfg params).
    { unfold with_hardcoded_defaults, with_effective_defaults, resolved_engine,
        resolved_count.
      cbn [defaultSearchEngine defaultCount emptyConfig].
      rewrite <- !or_default_spec, Hengine, Hcount. reflexivity. }
    rewrite Hsame. unfold execute.
    destruct (or_else (apiKey cfg) env) as [k |]; [| reflexivity].
    now rewrite searchAndFormat_with_defaults.
  - reflexivity.
Qed.

Lemma defaulting_is_idempotent_witness :
  @execute integer_format (config_with_key "k") None (explicit_defaults "rocq")
           (answers 200 (Returned no_results))
  = @execute integer_format (config_with_key "k") None (bare_query "rocq")
             (answers 200 (Returned no_results)).
Proof.
  exact (proj1 (@defaulting_is_idempotent integer_format (config_with_key "k") None
                  (bare_query "rocq") "k" (answers 200 (Returned no_results)))).
Defined.

(* ================================================================== *)
(** ** Further properties of the executor, the formatter and registration *)
(* ================================================================== *)

(** *** What can be thrown *)

Lemma bind_threw {A B} (m : outcome A) (k : A -> outcome B) (e : Thrown) :
  bind m k = Threw e ->
  m = Threw e \/ exists a, m = Returned a /\ k a = Threw e.
Proof.
  destruct m as [a | e']; cbn.
  - intros Hk. right. now exists a.
  - intros He. left. injection He as ->. reflexivity.
Qed.

Lemma get_prop_error (v : Value) (name : string) (e : Thrown) :
  get_prop v name = Threw e -> e = mkThrown TypeError (cannot_read v name).
Proof.
  destruct v; cbn; try discriminate.
  - intros He. now injection He.
  - intros He. now injection He.
  - destruct (name =? "length"); [discriminate |].
    destruct (name =? "link"); discriminate.
  - destruct (name =? "length"); [discriminate |].
    destruct (name =? "map"); discriminate.
  - destruct (lookup name props); discriminate.
Qed.

Lemma to_string_error `{NumberFormat} :
  forall (v : Value) (e : Thrown),
    to_string v = Threw e -> e = mkThrown TypeError cannot_convert.
Proof.
  fix IH 1. intros v e. destruct v as [| | b | n | s | items | props | name];
    cbn [to_string]; try discriminate.
  - destruct b; discriminate.
  - induction items as [| x rest IHrest]; [discriminate |].
    intros Hthrew. apply bind_threw in Hthrew as [Hx | [sx [_ Hrest]]].
    + destruct (is_nullish x); [discriminate | now apply (IH x)].
    + destruct rest as [| y rest']; [discriminate |].
      apply bind_threw in Hrest as [Hrest | [sr [_ Hret]]]; [| discriminate].
      now apply IHrest.
  - destruct (lookup "toString" props); [| discriminate].
    intros He. now injection He.
Qed.

Lemma to_string_type_error `{NumberFormat} (v : Value) (e : Thrown) :
  to_string v = Threw e -> is_type_error e.
Proof. intros He. apply to_string_error in He. now subst. Qed.

Lemma get_prop_type_error (v : Value) (name : string) (e : Thrown) :
  get_prop v name = Threw e -> is_type_error e.
Proof. intros He. apply get_prop_error in He. now subst. Qed.



(** *** The search call *)

(** X1.  [performWebSearch] returns a value exactly when [fetch]
    resolves with a status in 200-299 whose body parses, and the value
    is then the parsed body, unchanged and unvalidated. *)
Theorem performWebSearch_returns_iff `{NumberFormat} (params : WebSearchParams)
        (key : string) (net : Network) (v : Value) :
  fst (performWebSearch params key net) = Returned v
  <-> exists r,
        net (searchRequest params key) = Resolves r
        /\ (200 <= status r <= 299)%nat
        /\ json r = Returned v.
Proof.
  unfold performWebSearch, bindE, fetch.
  destruct (net (searchRequest params key)) as [e | r] eqn:Hnet.
  - split; [discriminate |]. intros [r [Hr _]]. discriminate.
  - assert (Hrange : ok r = true <-> (200 <= status r <= 299)%nat).
    { unfold ok. rewrite andb_true_iff, !Nat.leb_le. tauto. }
    destruct (ok r) eqn:Hok; cbn [negb lift fst].
    + split.
      * intros Hv. exists r. split; [reflexivity |]. split; [now apply Hrange | exact Hv].
      * intros [r' [Hr' [_ Hv]]]. injection Hr' as <-. exact Hv.
    + destruct (failWith_always_throws r) as [e He]. rewrite He. split; [discriminate |].
      intros [r' [Hr' [Hbounds _]]]. injection Hr' as <-.
      apply Hrange in Hbounds. discriminate.
Qed.



(** *** The handler, end to end *)

Lemma searchAndFormat_sent `{NumberFormat} cfg params key net :
  snd (searchAndFormat cfg params key net) = [searchRequest (searchParams cfg params) key].
Proof.
  unfold searchAndFormat, bindE.
  pose proof (performWebSearch_sends (searchParams cfg params) key net) as Hsent.
  destruct (performWebSearch (searchParams cfg params) key net) as [[response | e] s];
    cbn [snd] in Hsent; subst s; [| reflexivity].
  unfold lift. reflexivity.
Qed.

Lemma execute_with_key `{NumberFormat} cfg env params net (key : string) :
  or_else (apiKey cfg) env = Some key ->
  key <> "" ->
  execute cfg env params net
  = tryE (searchAndFormat cfg params key)
         (fun error => retE (errorResult (message error))) net.
Proof.
  intros Hkey Hne. unfold execute. rewrite Hkey.
  destruct key as [| c key']; [now contradiction Hne | reflexivity].
Qed.

Lemma execute_reports `{NumberFormat} cfg env params net (key : string) (e : Thrown) :
  or_else (apiKey cfg) env = Some key ->
  key <> "" ->
  fst (performWebSearch (searchParams cfg params) key net) = Threw e ->
  execute cfg env params net
  = (Returned (errorResult (message e)), [searchRequest (searchParams cfg params) key]).
Proof.
  intros Hkey Hne Hthrew. rewrite (execute_with_key cfg env params net Hkey Hne).
  unfold tryE, searchAndFormat, bindE.
  pose proof (performWebSearch_sends (searchParams cfg params) key net) as Hsent.
  destruct (performWebSearch (searchParams cfg params) key net) as [[response | e'] s].
  - discriminate Hthrew.
  - cbn [fst snd] in *. injection Hthrew as ->. subst s. reflexivity.
Qed.

(** X3.  A network failure does not escape: when [fetch] rejects, the
    handler returns the error result carrying the rejection's message,
    after exactly one request. *)
Theorem network_failure_is_reported `{NumberFormat} (cfg : PluginConfig)
        (env : option string) (params : WebSearchParams) (net : Network)
        (key : string) (e : Thrown) :
  or_else (apiKey cfg) env = Some key ->
  key <> "" ->
  net (searchRequest (searchParams cfg params) key) = Rejects e ->
  execute cfg env params net
  = (Returned
       {| content := [ {| type := "text";
                          text := "Error performing web search: " ++ message e |} ];
          details := VObj [("error", VBool true); ("message", VStr (message e))] |},
     [searchRequest (searchParams cfg params) key]).
Proof.
  intros Hkey Hne Hnet. apply (execute_reports cfg env params net Hkey Hne).
  unfold performWebSearch, bindE, fetch. now rewrite Hnet.
Qed.

Lemma network_failure_is_reported_witness :
  @execute integer_format (config_with_key "k") None (bare_query "rocq")
           (rejects connection_refused)
  = (Returned
       {| content := [ {| type := "text";
                          text := "Error performing web search: "
                                  ++ message connection_refused |} ];
          details := VObj [("error", VBool true);
                           ("message", VStr (message connection_refused))] |},
     [searchRequest (searchParams (config_with_key "k") (bare_query "rocq")) "k"]).
Proof.
  apply (@network_failure_is_reported integer_format (config_with_key "k") None
           (bare_query "rocq") (rejects connection_refused) "k" connection_refused);
    [reflexivity | discriminate | reflexivity].
Defined.

(** X4.  An upstream error message reaches the caller verbatim: on a
    non-success status whose body is an object with a string
    [error.message], the handler returns the text
    [Error performing web search: BigModel API error: <message>] and the
    same message in [details]. *)
Theorem upstream_error_reaches_caller `{NumberFormat} (cfg : PluginConfig)
        (env : option string) (params : WebSearchParams) (net : Network)
        (key : string) (r : Response) (props eprops : list (string * Value)) (m : string) :
  or_else (apiKey cfg) env = Some key ->
  key <> "" ->
  net (searchRequest (searchParams cfg params) key) = Resolves r ->
  ok r = false ->
  json r = Returned (VObj props) ->
  lookup "error" props = Some (VObj eprops) ->
  lookup "message" eprops = Some (VStr m) ->
  execute cfg env params net
  = (Returned
       {| content :=
            [ {| type := "text";
                 text := "Error performing web search: " ++ "BigModel API error: " ++ m |} ];
          details := VObj [("error", VBool true);
                           ("message", VStr ("BigModel API error: " ++ m))] |},
     [searchRequest (searchParams cfg params) key]).
Proof.
  intros Hkey Hne Hnet Hok Hjson Herr Hmsg.
  apply (execute_reports cfg env params net Hkey Hne
           (e := mkThrown PlainError ("BigModel API error: " ++ m))).
  destruct (@performWebSearch_error_status _ (searchParams cfg params) key net r Hnet Hok)
    as [-> _].
  unfold lift. cbn [fst]. now apply upstream_message_is_reported with props eprops.
Qed.

Lemma upstream_error_reaches_caller_witness :
  @execute integer_format (config_with_key "k") None (bare_query "rocq")
           (answers 401 (Returned bad_key_body))
  = (Returned
       {| content :=
            [ {| type := "text";
                 text := "Error performing web search: " ++ "BigModel API error: "
                         ++ "bad key" |} ];
          details := VObj [("error", VBool true);
                           ("message", VStr ("BigModel API error: " ++ "bad key"))] |},
     [searchRequest (searchParams (config_with_key "k") (bare_query "rocq")) "k"]).
Proof.
  apply (@upstream_error_reaches_caller integer_format (config_with_key "k") None
           (bare_query "rocq") (answers 401 (Returned bad_key_body)) "k"
           (mkResponse 401 (Returned bad_key_body))
           [("error", VObj [("message", VStr "bad key")])]
           [("message", VStr "bad key")] "bad key");
    [reflexivity | discriminate | reflexivity | reflexivity | reflexivity
     | reflexivity | reflexivity].
Defined.

Lemma append_associative (a b c : string) : (a ++ b) ++ c = a ++ b ++ c.
Proof. induction a as [| x a IH]; cbn; [reflexivity | now rewrite IH]. Qed.

Lemma performWebSearch_success_status `{NumberFormat} params key net (r : Response) :
  net (searchRequest params key) = Resolves r ->
  ok r = true ->
  performWebSearch params key net = (json r, [searchRequest params key]).
Proof.
  intros Hnet Hok. unfold performWebSearch, bindE, fetch. rewrite Hnet, Hok.
  unfold lift. cbn [negb]. reflexivity.
Qed.

(** X5.  A successful search, end to end: when the endpoint answers
    with a success status and a body whose [search_result] is a list of
    well-typed items, the handler returns one text block, the heading
    naming the query followed by the formatted items, and details
    holding the query, the number of items and the resolved engine,
    after exactly one request. *)
Theorem successful_search `{NumberFormat} (cfg : PluginConfig) (env : option string)
        (params : WebSearchParams) (net : Network) (key : string) (r : Response)
        (props : list (string * Value)) (items : list Item.SearchResultItem) :
  or_else (apiKey cfg) env = Some key ->
  key <> "" ->
  net (searchRequest (searchParams cfg params) key) = Resolves r ->
  ok r = true ->
  json r = Returned (VObj props) ->
  lookup "search_result" props = Some (VArr (map item_value items)) ->
  execute cfg env params net
  = (Returned
       {| content :=
            [ {| type := "text";
                 text := results_heading (query params) ++ format_spec non_empty items |} ];
          details :=
            VObj [("query", VStr (query params));
                  ("resultCount", VNum (of_nat (List.length items)));
                  ("searchEngine", VStr (engine_name (resolved_engine cfg params)))] |},
     [searchRequest (searchParams cfg params) key]).
Proof.
  intros Hkey Hne Hnet Hok Hjson Hresults.
  rewrite (execute_with_key cfg env params net Hkey Hne).
  unfold tryE, searchAndFormat, bindE.
  rewrite (performWebSearch_success_status (searchParams cfg params) key net Hnet Hok).
  unfold lift. rewrite Hjson.
  cbn [get_prop]. rewrite Hresults. cbn [ret bind].
  rewrite formatSearchResults_typed. cbn [bind].
  cbn [get_prop String.eqb Ascii.eqb Bool.eqb ret bind]. rewrite length_map.
  destruct (searchParams_resolved cfg params) as [-> _].
  unfold results_heading. rewrite !append_associative. reflexivity.
Qed.

Lemma successful_search_witness :
  @execute integer_format (config_pro "k") None (bare_query "rocq")
           (answers 200 (Returned two_results))
  = (Returned
       {| content :=
            [ {| type := "text";
                 text := results_heading "rocq"
                         ++ format_spec non_empty [sourced_item; plain_item "T" "C" "L"] |} ];
          details :=
            VObj [("query", VStr "rocq");
                  ("resultCount", VNum (of_nat 2));
                  ("searchEngine", VStr "search_pro")] |},
     [searchRequest (searchParams (config_pro "k") (bare_query "rocq")) "k"]).
Proof.
  apply (@successful_search integer_format (config_pro "k") None (bare_query "rocq")
           (answers 200 (Returned two_results)) "k" (mkResponse 200 (Returned two_results))
           [("id", VStr "r1");
            ("search_result", VArr (map item_value [sourced_item; plain_item "T" "C" "L"]))]
           [sourced_item; plain_item "T" "C" "L"]);
    [reflexivity | discriminate | reflexivity | reflexivity | reflexivity | reflexivity].
Defined.

(** *** Requests and the API key *)

Lemma execute_sent `{NumberFormat} (cfg : PluginConfig) (env : option string)
      (params : WebSearchParams) (net : Network) :
  snd (execute cfg env params net)
  = match or_else (apiKey cfg) env with
    | Some key =>
        if key =? "" then [] else [searchRequest (searchParams cfg params) key]
    | None => []
    end.
Proof.
  unfold execute. destruct (or_else (apiKey cfg) env) as [key |]; [| reflexivity].
  destruct key as [| c key']; [reflexivity |].
  cbn [to_boolean negb String.eqb]. unfold tryE.
  pose proof (searchAndFormat_sent cfg params (String c key') net) as Hsent.
  destruct (searchAndFormat cfg params (String c key') net) as [[r | e] s];
    cbn [snd] in *; subst s; reflexivity.
Qed.

(** X6.  The handler never retries and never calls the network without
    a usable key: whatever the network does, be it a rejection, an
    error status or a malformed body, it sends no request when the
    resolved key is missing or empty, and otherwise exactly one, built
    from the resolved parameters. *)
Theorem execute_request_log `{NumberFormat} (cfg : PluginConfig) (env : option string)
        (params : WebSearchParams) (net : Network) :
  snd (execute cfg env params net)
  = match or_else (apiKey cfg) env with
    | Some key =>
        if key =? "" then [] else [searchRequest (searchParams cfg params) key]
    | None => []
    end
  /\ (List.length (snd (execute cfg env params net)) <= 1)%nat.
Proof.
  split; [apply execute_sent |]. rewrite execute_sent.
  destruct (or_else (apiKey cfg) env) as [key |]; [| apply Nat.le_0_l].
  destruct (key =? ""); [apply Nat.le_0_l | apply Nat.le_refl].
Qed.

(** X7.  Every request the handler sends is a POST to the fixed
    endpoint with a JSON content type, and its bearer token is the
    configured [apiKey] when the configuration has one, else the
    environment's key. *)
Theorem requests_carry_the_resolved_key `{NumberFormat} (cfg : PluginConfig)
        (env : option string) (params : WebSearchParams) (net : Network) (req : Request) :
  In req (snd (execute cfg env params net)) ->
  url req = "https://open.bigmodel.cn/api/paas/v4/web_search"
  /\ method req = "POST"
  /\ headers req
     = [("Authorization",
         "Bearer " ++ match apiKey cfg with
                      | Some k => k
                      | None => match env with Some k => k | None => "" end
                      end);
        ("Content-Type", "application/json")]
  /\ body req = requestBody (searchParams cfg params).
Proof.
  rewrite execute_sent. unfold or_else.
  destruct (apiKey cfg) as [k |]; [| destruct env as [k |]].
  - destruct (k =? ""); cbn [In]; [intros [] |].
    intros [<- | []]. repeat split; reflexivity.
  - destruct (k =? ""); cbn [In]; [intros [] |].
    intros [<- | []]. repeat split; reflexivity.
  - intros [].
Qed.

Lemma requests_carry_the_resolved_key_witness :
  url (searchRequest (searchParams emptyConfig (bare_query "rocq")) "from-env")
  = "https://open.bigmodel.cn/api/paas/v4/web_search"
  /\ method (searchRequest (searchParams emptyConfig (bare_query "rocq")) "from-env") = "POST"
  /\ headers (searchRequest (searchParams emptyConfig (bare_query "rocq")) "from-env")
     = [("Authorization",
         "Bearer " ++ match apiKey emptyConfig with
                      | Some k => k
                      | None => match Some "from-env" with Some k => k | None => "" end
                      end);
        ("Content-Type", "application/json")]
  /\ body (searchRequest (searchParams emptyConfig (bare_query "rocq")) "from-env")
     = requestBody (searchParams emptyConfig (bare_query "rocq")).
Proof.
  apply (@requests_carry_the_resolved_key integer_format emptyConfig (Some "from-env")
           (bare_query "rocq") (answers 200 (Returned no_results))).
  left. reflexivity.
Defined.

(** X8.  An empty [apiKey] in the configuration blocks the environment
    fallback: [??] keeps the empty string, which is falsy, so the
    handler reports the missing key and sends nothing even when
    [BIGMODEL_API_KEY] is set. *)
Theorem empty_config_key_blocks_env `{NumberFormat} (cfg : PluginConfig)
        (env : option string) (params : WebSearchParams) (net : Network) :
  apiKey cfg = Some "" ->
  execute cfg env params net
  = (Returned
       {| content := [ {| type := "text"; text := missingKeyText |} ];
          details := VObj [("error", VBool true);
                           ("message", VStr "API key not configured")] |},
     []).
Proof. intros Hkey. unfold execute. now rewrite Hkey. Qed.

Lemma empty_config_key_blocks_env_witness :
  @execute integer_format (config_with_key "") (Some "from-env") (bare_query "rocq")
           (answers 200 (Returned no_results))
  = (Returned
       {| content := [ {| type := "text"; text := missingKeyText |} ];
          details := VObj [("error", VBool true);
                           ("message", VStr "API key not configured")] |},
     []).
Proof.
  exact (@empty_config_key_blocks_env integer_format (config_with_key "") (Some "from-env")
           (bare_query "rocq") (answers 200 (Returned no_results)) eq_refl).
Defined.

(** *** More on the configuration normalizer *)

Lemma in_range_finite (n : number) :
  in_range n = true -> exists q, n = Finite q /\ (1 <= q)%Q /\ (q <= 50)%Q.
Proof.
  unfold in_range. destruct n as [| | | q]; cbn; try discriminate.
  intros Hq. apply andb_true_iff in Hq as [Hlo Hhi].
  exists q. split; [reflexivity |]. split; now apply Qle_bool_iff.
Qed.

Lemma normalize_count_in_range (props : list (string * Value)) (n : number) :
  defaultCount (normalize in_range props) = Some n -> in_range n = true.
Proof.
  unfold normalize; cbn [defaultCount].
  destruct (lookup "defaultCount" props) as [[| | b | m | s | l | p | f] |]; try discriminate.
  destruct (in_range m) eqn:Hm; [| discriminate].
  intros Heq. now injection Heq as <-.
Qed.

(** X9.  Whatever the input, a [defaultCount] that either variant of
    [parse] returns is a finite number between 1 and 50: never NaN, an
    infinity or an out-of-range value. *)
Theorem parsed_count_is_in_range (value : Value) (cfg : PluginConfig) (n : number) :
  Ts.parse value = Returned cfg \/ Strict.parse value = Returned cfg ->
  defaultCount cfg = Some n ->
  exists q, n = Finite q /\ (1 <= q)%Q /\ (q <= 50)%Q.
Proof.
  intros Hparse Hcount. apply in_range_finite.
  assert (Hts : Ts.parse value = Returned cfg).
  { destruct Hparse as [Hts | Hstrict]; [exact Hts |].
    destruct (strict_parse_cases value) as [[_ Hthrow] | [_ Hsame]]; congruence. }
  rewrite parse_as_normalized in Hts. injection Hts as <-.
  destruct value; try discriminate Hcount.
  now apply normalize_count_in_range with props.
Qed.

Lemma parsed_count_is_in_range_witness :
  exists q, of_Z 15 = Finite q /\ (1 <= q)%Q /\ (q <= 50)%Q.
Proof.
  apply (@parsed_count_is_in_range (config_value full_config) full_config (of_Z 15));
    [left; reflexivity | reflexivity].
Defined.

Lemma engine_of_name_engine_name (e : SearchEngine) :
  engine_of_name (engine_name e) = Some e.
Proof. destruct e; reflexivity. Qed.

(** X10.  Both variants of [parse] return a valid configuration
    unchanged: written as an object with one key per specified field, a
    configuration whose [defaultCount], if any, is between 1 and 50 is
    parsed back to itself, and the strict variant accepts it. *)
Theorem parse_keeps_valid_config (cfg : PluginConfig) :
  count_valid cfg = true ->
  Ts.parse (config_value cfg) = Returned cfg
  /\ Strict.parse (config_value cfg) = Returned cfg.
Proof.
  intros Hvalid.
  assert (Hts : Ts.parse (config_value cfg) = Returned cfg).
  { rewrite parse_as_normalized.
    destruct cfg as [en k e c]. unfold count_valid in Hvalid. cbn [defaultCount] in Hvalid.
    destruct en, k, e as [e |], c; cbn [config_value parse_spec opt_entry enabled apiKey
      defaultSearchEngine defaultCount app];
      unfold normalize; cbn [lookup String.eqb Ascii.eqb Bool.eqb];
      rewrite ?engine_of_name_engine_name, ?Hvalid; reflexivity. }
  split; [exact Hts |].
  destruct (strict_parse_cases (config_value cfg)) as [[Hunk _] | [_ Hsame]];
    [| now rewrite Hsame].
  exfalso. destruct Hunk as [props [k [Hv [Hin Hno]]]].
  apply Hno. unfold config_value in Hv. injection Hv as <-.
  unfold keys in Hin. rewrite !map_app, !in_app_iff in Hin. unfold opt_entry in Hin.
  destruct (enabled cfg), (apiKey cfg), (defaultSearchEngine cfg), (defaultCount cfg);
    cbn in Hin; unfold Strict.allowedKeys; cbn; tauto.
Qed.

Lemma parse_keeps_valid_config_witness :
  Ts.parse (config_value full_config) = Returned full_config
  /\ Strict.parse (config_value full_config) = Returned full_config.
Proof. exact (parse_keeps_valid_config full_config eq_refl). Defined.

(** *** The formatter on bodies of any shape *)

Ltac thrown_steps :=
  repeat match goal with
    | H : bind _ _ = Threw _ |- _ => apply bind_threw in H as [H | [? [_ H]]]
    | H : get_prop _ _ = Threw _ |- _ => exact (get_prop_type_error _ _ H)
    | H : to_string _ = Threw _ |- _ => exact (to_string_type_error _ H)
    | H : (if ?b then _ else _) = Threw _ |- _ => destruct b
    | H : ret _ = Threw _ |- _ => discriminate H
    end.

Lemma formatItem_type_error `{NumberFormat} (result : Value) (index : nat) (e : Thrown) :
  formatItem result index = Threw e -> is_type_error e.
Proof. unfold formatItem. cbv zeta. intros Hthrew. thrown_steps. Qed.

Lemma mapIndexed_type_error `{NumberFormat} (items : list Value) (index : nat) (e : Thrown) :
  mapIndexed formatItem index items = Threw e -> is_type_error e.
Proof.
  revert index. induction items as [| x rest IH]; intros index; cbn [mapIndexed];
    [discriminate |].
  intros Hthrew. apply bind_threw in Hthrew as [Hx | [y [_ Hrest]]].
  - now apply formatItem_type_error in Hx.
  - apply bind_threw in Hrest as [Hrest | [ys [_ Hret]]]; [| discriminate].
    now apply IH in Hrest.
Qed.

(** X11.  Whatever value stands where the result list should be,
    [formatSearchResults] throws nothing but TypeErrors. *)
Theorem formatSearchResults_type_errors `{NumberFormat} (results : Value) (e : Thrown) :
  formatSearchResults results = Threw e -> kind e = TypeError.
Proof.
  unfold formatSearchResults. intros Hthrew.
  apply bind_threw in Hthrew as [Hlen | [len [_ Hrest]]].
  - now apply get_prop_type_error in Hlen.
  - destruct (match len with VNum n => num_eq n (of_Z 0) | _ => false end);
      [discriminate |].
    destruct results; try (injection Hrest as <-; reflexivity).
    apply bind_threw in Hrest as [Hmap | [formatted [_ Hret]]]; [| discriminate].
    now apply mapIndexed_type_error in Hmap.
Qed.

Lemma formatSearchResults_type_errors_witness :
  kind (mkThrown TypeError (cannot_read VNull "title")) = TypeError.
Proof.
  exact (@formatSearchResults_type_errors integer_format (VArr [VNull])
           (mkThrown TypeError (cannot_read VNull "title")) eq_refl).
Defined.

Lemma mapIndexed_nullish_item `{NumberFormat} (items : list Value) (index : nat) (x : Value) :
  In x items ->
  is_nullish x = true ->
  exists e, mapIndexed formatItem index items = Threw e.
Proof.
  revert index. induction items as [| x0 rest IH]; intros index Hin Hnull; [contradiction |].
  cbn [mapIndexed].
  destruct (formatItem x0 index) as [y | e] eqn:Hx0; cbn [bind]; [| now exists e].
  destruct Hin as [-> | Hin].
  - destruct x; try discriminate Hnull; discriminate Hx0.
  - destruct (IH (S index) Hin Hnull) as [e ->]. now exists e.
Qed.

(** X12.  No partial output: if any element of the result list is
    [null] or [undefined], formatting the whole list throws a
    TypeError, however many well-formed items surround it. *)
Theorem nullish_item_fails_formatting `{NumberFormat} (items : list Value) (x : Value) :
  In x items ->
  is_nullish x = true ->
  exists e, formatSearchResults (VArr items) = Threw e /\ kind e = TypeError.
Proof.
  intros Hin Hnull.
  destruct (mapIndexed_nullish_item items 0 x Hin Hnull) as [e He].
  assert (Hfmt : formatSearchResults (VArr items) = Threw e).
  { unfold formatSearchResults. cbn [get_prop String.eqb Ascii.eqb Bool.eqb ret bind].
    rewrite length_is_zero_iff.
    destruct items as [| x0 rest]; [contradiction |].
    cbn [List.length]. now rewrite He. }
  exists e. split; [exact Hfmt | now apply mapIndexed_type_error in He].
Qed.

Lemma nullish_item_fails_formatting_witness :
  exists e,
    @formatSearchResults integer_format
      (VArr [item_value (plain_item "T" "C" "L"); VNull; item_value sourced_item])
    = Threw e /\ kind e = TypeError.
Proof.
  apply (@nullish_item_fails_formatting integer_format
           [item_value (plain_item "T" "C" "L"); VNull; item_value sourced_item] VNull);
    [right; left; reflexivity | reflexivity].
Defined.



(** *** Registration *)

Lemma execute_depends_on `{NumberFormat} (cfg1 cfg2 : PluginConfig) :
  apiKey cfg1 = apiKey cfg2 ->
  defaultSearchEngine cfg1 = defaultSearchEngine cfg2 ->
  defaultCount cfg1 = defaultCount cfg2 ->
  execute cfg1 = execute cfg2.
Proof.
  destruct cfg1 as [e1 k1 d1 c1], cfg2 as [e2 k2 d2 c2]; cbn.
  intros -> -> ->. reflexivity.
Qed.

Lemma tools_of_equal_handlers `{NumberFormat} (cfg1 cfg2 : PluginConfig) :
  execute cfg1 = execute cfg2 ->
  TsPlugin.tool cfg1 = TsPlugin.tool cfg2 /\ StrictPlugin.tool cfg1 = StrictPlugin.tool cfg2.
Proof.
  intros Hsame. unfold TsPlugin.tool, StrictPlugin.tool.
  change (fun (_id : string) env params => execute cfg1 env params)
    with (fun _id : string => execute cfg1).
  change (fun (_id : string) env params => execute cfg2 env params)
    with (fun _id : string => execute cfg2).
  now rewrite Hsame.
Qed.

(** X14.  The two variants at registration.  The index.ts variant
    never throws and adds exactly one tool, [bigmodel_web_search],
    built from the normalized configuration.  The index.js variant
    throws on an unknown configuration key and then leaves the registry
    untouched; otherwise it adds exactly one tool, [web-search], whose
    handler is the very handler of the other variant. *)
Theorem registration_of_both_variants `{NumberFormat} (raw : Value) (registered : list Tool) :
  (exists cfg,
      Ts.parse raw = Returned cfg
      /\ TsPlugin.register raw registered
         = (Returned tt, (registered ++ [TsPlugin.tool cfg])%list)
      /\ tool_name (TsPlugin.tool cfg) = "bigmodel_web_search")
  /\ (has_unknown_key raw ->
      StrictPlugin.register raw registered
      = (Threw (mkThrown PlainError
                  ("Unknown config keys: " ++ join ", " (Strict.unknownKeys raw))),
         registered))
  /\ (~ has_unknown_key raw ->
      exists cfg,
        Ts.parse raw = Returned cfg
        /\ StrictPlugin.register raw registered
           = (Returned tt, (registered ++ [StrictPlugin.tool cfg])%list)
        /\ tool_name (StrictPlugin.tool cfg) = "web-search"
        /\ tool_execute (StrictPlugin.tool cfg) = tool_execute (TsPlugin.tool cfg)).
Proof.
  split; [| split].
  - exists (parse_spec in_range raw). unfold TsPlugin.register.
    rewrite parse_as_normalized. repeat split.
  - intros Hunk. unfold StrictPlugin.register.
    destruct (strict_parse_cases raw) as [[_ ->] | [Hno _]];
      [reflexivity | now contradiction Hno].
  - intros Hknown. exists (parse_spec in_range raw). unfold StrictPlugin.register.
    destruct (strict_parse_cases raw) as [[Hunk _] | [_ ->]];
      [now contradiction Hknown |].
    rewrite parse_as_normalized. repeat split.
Qed.

(** X15.  The [enabled] flag is parsed but never consulted: whatever
    the configuration says under [enabled], also [false], both variants
    register exactly the tool they register without that key. *)
Theorem enabled_is_never_consulted `{NumberFormat} (props : list (string * Value))
        (v : Value) (registered : list Tool) :
  TsPlugin.register (VObj (("enabled", v) :: props)) registered
  = TsPlugin.register (VObj props) registered
  /\ StrictPlugin.register (VObj (("enabled", v) :: props)) registered
     = StrictPlugin.register (VObj props) registered.
Proof.
  assert (Hexec : execute (normalize in_range (("enabled", v) :: props))
                  = execute (normalize in_range props))
    by (apply execute_depends_on; reflexivity).
  destruct (tools_of_equal_handlers Hexec) as [Hts Hstrict].
  split.
  - unfold TsPlugin.register. rewrite !parse_as_normalized. cbn [parse_spec].
    now rewrite Hts.
  - unfold StrictPlugin.register, Strict.parse.
    cbn [not_plain_object to_boolean typeof isArray negb orb String.eqb Ascii.eqb Bool.eqb].
    assert (Hkeys : Strict.unknownKeys (VObj (("enabled", v) :: props))
                    = Strict.unknownKeys (VObj props)) by reflexivity.
    rewrite Hkeys.
    destruct (0 <? List.length (Strict.unknownKeys (VObj props)))%nat; [reflexivity |].
    rewrite !project_object. now rewrite Hstrict.
Qed.

(** X16.  An [apiKey] of the wrong type is dropped, not rejected: when
    the raw configuration holds no string under [apiKey], the tool is
    registered all the same, and every request its handler sends bears
    the environment's key. *)
Theorem invalid_config_key_falls_back_to_env `{NumberFormat}
        (props : list (string * Value)) (registered : list Tool) :
  (forall s, lookup "apiKey" props <> Some (VStr s)) ->
  exists t,
    TsPlugin.register (VObj props) registered = (Returned tt, (registered ++ [t])%list)
    /\ forall id env params net req,
        In req (snd (tool_execute t id env params net)) ->
        exists k,
          env = Some k
          /\ headers req = [("Authorization", "Bearer " ++ k);
                            ("Content-Type", "application/json")].
Proof.
  intros Hkey. exists (TsPlugin.tool (normalize in_range props)). split.
  - unfold TsPlugin.register. now rewrite parse_as_normalized.
  - intros id env params net req Hin. cbn [TsPlugin.tool tool_execute] in Hin.
    assert (Hnone : apiKey (normalize in_range props) = None).
    { unfold normalize; cbn [apiKey].
      destruct (lookup "apiKey" props) as [[| | b | n | s | l | p | f] |]; try reflexivity.
      now contradiction (Hkey s). }
    rewrite execute_sent in Hin. unfold or_else in Hin. rewrite Hnone in Hin.
    destruct env as [k |]; [| contradiction].
    destruct (k =? ""); [contradiction |].
    destruct Hin as [<- | []]. now exists k.
Qed.

Lemma invalid_config_key_falls_back_to_env_witness :
  exists t,
    @TsPlugin.register integer_format (VObj [("apiKey", VNum (of_Z 12345))]) []
    = (Returned tt, ([] ++ [t])%list)
    /\ forall id env params net req,
        In req (snd (tool_execute t id env params net)) ->
        exists k,
          env = Some k
          /\ headers req = [("Authorization", "Bearer " ++ k);
                            ("Content-Type", "application/json")].
Proof.
  apply (@invalid_config_key_falls_back_to_env integer_format
           [("apiKey", VNum (of_Z 12345))] []).
  intros s. discriminate.
Defined.

(** X17.  The status fallback, end to end: on a non-success status
    whose body does not parse, or parses to an object without [error],
    the handler returns the text
    [Error performing web search: BigModel API error: HTTP <status>]. *)
Theorem status_fallback_reaches_caller `{NumberFormat} (cfg : PluginConfig)
        (env : option string) (params : WebSearchParams) (net : Network)
        (key : string) (r : Response) :
  or_else (apiKey cfg) env = Some key ->
  key <> "" ->
  net (searchRequest (searchParams cfg params) key) = Resolves r ->
  ok r = false ->
  (exists e0, json r = Threw e0)
  \/ (exists props, json r = Returned (VObj props) /\ lookup "error" props = None) ->
  execute cfg env params net
  = (Returned
       {| content :=
            [ {| type := "text";
                 text := "Error performing web search: " ++ "BigModel API error: HTTP "
                         ++ nat_to_string (status r) |} ];
          details :=
            VObj [("error", VBool true);
                  ("message",
                   VStr ("BigModel API error: HTTP " ++ nat_to_string (status r)))] |},
     [searchRequest (searchParams cfg params) key]).
Proof.
  intros Hkey Hne Hnet Hok Hbody.
  apply (execute_reports cfg env params net Hkey Hne
           (e := mkThrown PlainError
                   ("BigModel API error: HTTP " ++ nat_to_string (status r)))).
  destruct (@performWebSearch_error_status _ (searchParams cfg params) key net r Hnet Hok)
    as [-> _].
  unfold lift. cbn [fst].
  destruct Hbody as [[e0 Hjson] | [props [Hjson Herr]]].
  - now apply status_is_reported_when_unparseable with e0.
  - now apply status_is_reported_without_error_field with props.
Qed.

Lemma status_fallback_reaches_caller_witness :
  @execute integer_format (config_with_key "k") None (bare_query "rocq")
           (answers 503 unparseable)
  = (Returned
       {| content :=
            [ {| type := "text";
                 text := "Error performing web search: " ++ "BigModel API error: HTTP "
                         ++ nat_to_string 503 |} ];
          details :=
            VObj [("error", VBool true);
                  ("message", VStr ("BigModel API error: HTTP " ++ nat_to_string 503))] |},
     [searchRequest (searchParams (config_with_key "k") (bare_query "rocq")) "k"]).
Proof.
  apply (@status_fallback_reaches_caller integer_format (config_with_key "k") None
           (bare_query "rocq") (answers 503 unparseable) "k" (mkResponse 503 unparseable));
    [reflexivity | discriminate | reflexivity | reflexivity | ].
  left. now exists (mkThrown SyntaxError "Unexpected token < in JSON at position 0").
Defined.
